(** * The Deployer reconciler of directpv-operator

    A shallow embedding of [internal/controller/memcached_controller.go]:
    the [Reconcile] method of [DeployerReconciler], the two child-object
    builders, label derivation and image resolution, together with the
    parts of the Kubernetes client libraries the method calls.

    The cluster API (the Resource Store) is a finite map per kind, keyed by
    namespace and name.  Every API call first consults a list of injected
    faults, so a call can fail for reasons outside the model (network,
    stale version, admission); a pass returns, next to its result, the
    list of the calls it made with their answers. *)

From stdpp Require Import base strings list gmap fin_maps pretty.
From Stdlib Require Import ZArith Ascii.

Open Scope Z_scope.
Open Scope string_scope.
Open Scope list_scope.

(** ** Library types (k8s.io/apimachinery, metav1) *)

Inductive ConditionStatus := ConditionTrue | ConditionFalse | ConditionUnknown.

Record Condition := {
  Type_ : string;
  Status : ConditionStatus;
  Reason : string;
  Message : string;
  LastTransitionTime : option Z;
}.

Record OwnerReference := {
  ownerKind : string;
  ownerName : string;
  ownerController : bool;
}.

(** [types.NamespacedName], written namespace first. *)
Abbreviation NamespacedName := (string * string)%type.

Inductive StatusReason :=
  ReasonNotFound | ReasonAlreadyExists | ReasonConflict | ReasonInvalid
| ReasonOther.

(** A Go [error]: an API status error with its reason, or a plain error
    made by [fmt.Errorf]. *)
Inductive err :=
| StatusError (reason : StatusReason) (msg : string)
| PlainError (msg : string).

(** [apierrors.IsNotFound]. *)
Definition IsNotFound (e : err) : bool :=
  match e with
  | StatusError ReasonNotFound _ => true
  | _ => false
  end.

(** [err.Error()], what the verb %s prints. *)
Definition Error (e : err) : string :=
  match e with
  | StatusError _ msg => msg
  | PlainError msg => msg
  end.

#[global] Instance ConditionStatus_eq_dec : EqDecision ConditionStatus.
Proof. solve_decision. Defined.
#[global] Instance Condition_eq_dec : EqDecision Condition.
Proof. solve_decision. Defined.
#[global] Instance StatusReason_eq_dec : EqDecision StatusReason.
Proof. solve_decision. Defined.
#[global] Instance err_eq_dec : EqDecision err.
Proof. solve_decision. Defined.

(** ** The managed resource *)

(** Modelled from the spec: the [Deployer] type of [api/v1alpha1] is not
    among the sources.  The fields are the ones the spec's data model
    lists and the controller reads: [Name] and [Namespace], the finalizer
    tags and the deletion timestamp of the metadata, [Spec.Size] (an
    int32) and [Spec.ContainerPort], and [Status.Conditions]. *)
Record Deployer := {
  Name : string;
  Namespace : string;
  Finalizers : list string;
  DeletionTimestamp : option Z;
  Size : Z;
  ContainerPort : Z;
  Conditions : list Condition;
}.

Definition keyOf (d : Deployer) : NamespacedName := (Namespace d, Name d).

Definition withConditions (d : Deployer) (cs : list Condition) : Deployer :=
  {| Name := Name d; Namespace := Namespace d; Finalizers := Finalizers d;
     DeletionTimestamp := DeletionTimestamp d; Size := Size d;
     ContainerPort := ContainerPort d; Conditions := cs |}.

Definition withFinalizers (d : Deployer) (fs : list string) : Deployer :=
  {| Name := Name d; Namespace := Namespace d; Finalizers := fs;
     DeletionTimestamp := DeletionTimestamp d; Size := Size d;
     ContainerPort := ContainerPort d; Conditions := Conditions d |}.

Definition withSpecOf (d src : Deployer) : Deployer :=
  {| Name := Name d; Namespace := Namespace d; Finalizers := Finalizers d;
     DeletionTimestamp := DeletionTimestamp d; Size := Size src;
     ContainerPort := ContainerPort src; Conditions := Conditions d |}.

(** ** Child workloads

    The pod templates are kept to what the controller computes: names,
    labels, the service account and the image of every container.  The
    volumes, mounts, arguments, ports and probes of the source are
    constants that no branch of the controller reads. *)

Record Container := { containerName : string; Image : string }.

Record DaemonSet := {
  dsName : string;
  dsNamespace : string;
  dsOwnerReferences : list OwnerReference;
  dsMatchLabels : gmap string string;
  dsTemplateLabels : gmap string string;
  dsServiceAccountName : string;
  dsContainers : list Container;
}.

Record Deployment := {
  depName : string;
  depNamespace : string;
  depOwnerReferences : list OwnerReference;
  Replicas : option Z;
  depMatchLabels : gmap string string;
  depTemplateLabels : gmap string string;
  depServiceAccountName : string;
  depContainers : list Container;
}.

Definition withReplicas (dep : Deployment) (n : Z) : Deployment :=
  {| depName := depName dep; depNamespace := depNamespace dep;
     depOwnerReferences := depOwnerReferences dep; Replicas := Some n;
     depMatchLabels := depMatchLabels dep;
     depTemplateLabels := depTemplateLabels dep;
     depServiceAccountName := depServiceAccountName dep;
     depContainers := depContainers dep |}.

(** ** Constants of the controller *)

Definition deployerFinalizer : string := "cache.example.com/finalizer".
Definition typeAvailableDeployer : string := "Available".
Definition typeDegradedDeployer : string := "Degraded".

(** [ctrl.Result]; [RequeueAfter] is a [time.Duration], in nanoseconds. *)
Record Result := { Requeue : bool; RequeueAfter : Z }.

Definition noRequeue : Result := {| Requeue := false; RequeueAfter := 0 |}.
Definition requeueNow : Result := {| Requeue := true; RequeueAfter := 0 |}.
Definition Minute : Z := 60 * 1000000000.
Definition requeueAfterMinute : Result :=
  {| Requeue := false; RequeueAfter := Minute |}.

(** ** Library functions *)

Module meta.

(** [meta.FindStatusCondition]: the first condition of the given type
    and its position. *)
Fixpoint FindStatusCondition (cs : list Condition) (t : string)
  : option Condition :=
  match cs with
  | [] => None
  | c :: cs' =>
      if decide (Type_ c = t) then Some c else FindStatusCondition cs' t
  end.

(** The in-place update [meta.SetStatusCondition] makes of an existing
    condition: the transition time moves only when the status does. *)
Definition merge (now : Z) (old new : Condition) : Condition :=
  {| Type_ := Type_ old;
     Status := Status new;
     Reason := Reason new;
     Message := Message new;
     LastTransitionTime :=
       if decide (Status old = Status new) then LastTransitionTime old
       else match LastTransitionTime new with
            | Some t => Some t
            | None => Some now
            end |}.

Fixpoint replaceFirst (now : Z) (cs : list Condition) (new : Condition)
  : list Condition :=
  match cs with
  | [] => []
  | c :: cs' =>
      if decide (Type_ c = Type_ new) then merge now c new :: cs'
      else c :: replaceFirst now cs' new
  end.

(** [meta.SetStatusCondition(&conditions, newCondition)] at time [now]. *)
Definition SetStatusCondition (now : Z) (cs : list Condition)
    (new : Condition) : list Condition :=
  match FindStatusCondition cs (Type_ new) with
  | None =>
      cs ++ [ {| Type_ := Type_ new; Status := Status new;
                 Reason := Reason new; Message := Message new;
                 LastTransitionTime :=
                   match LastTransitionTime new with
                   | Some t => Some t
                   | None => Some now
                   end |} ]
  | Some _ => replaceFirst now cs new
  end.

End meta.

Module controllerutil.

(** [controllerutil.ContainsFinalizer]. *)
Definition ContainsFinalizer (d : Deployer) (f : string) : bool :=
  bool_decide (f ∈ Finalizers d).

(** [controllerutil.AddFinalizer]: the object and whether it changed. *)
Definition AddFinalizer (d : Deployer) (f : string) : Deployer * bool :=
  if bool_decide (f ∈ Finalizers d) then (d, false)
  else (withFinalizers d (Finalizers d ++ [f]), true).

(** [controllerutil.RemoveFinalizer]: every occurrence goes. *)
Definition RemoveFinalizer (d : Deployer) (f : string) : Deployer * bool :=
  let fs := filter (λ e, e ≠ f) (Finalizers d) in
  (withFinalizers d fs,
   negb (Nat.eqb (length (Finalizers d)) (length fs))).

End controllerutil.

Module gostrings.

(** [strings.Split(s, sep)] for a separator of one character, which is
    how the controller calls it: the pieces between the separators, so
    one piece more than there are separators. *)
Fixpoint Split (s : string) (sep : Ascii.ascii) : list string :=
  match s with
  | EmptyString => [EmptyString]
  | String c s' =>
      if decide (c = sep) then EmptyString :: Split s' sep
      else match Split s' sep with
           | piece :: pieces => String c piece :: pieces
           | [] => [String c EmptyString]
           end
  end.

(** Whether the character occurs in the string. *)
Fixpoint Contains (s : string) (c : Ascii.ascii) : bool :=
  match s with
  | EmptyString => false
  | String c' s' => if decide (c' = c) then true else Contains s' c
  end.

End gostrings.

(** ** Results, panics and the pass monad *)

(** A Go pair (value, error). *)
Inductive res (A : Type) := Ok (a : A) | Err (e : err).
Arguments Ok {A} a.
Arguments Err {A} e.

(** A pure Go computation that may panic. *)
Inductive go (A : Type) := Fine (a : A) | Panics (msg : string).
Arguments Fine {A} a.
Arguments Panics {A} msg.

(** One call to a collaborator, with what was sent and what came back. *)
Inductive Call :=
| GetDeployer (key : NamespacedName) (ans : res Deployer)
| StatusUpdate (obj : Deployer) (ans : res Deployer)
| UpdateDeployer (obj : Deployer) (ans : res Deployer)
| GetDaemonSet (key : NamespacedName) (ans : res DaemonSet)
| CreateDaemonSet (obj : DaemonSet) (ans : option err)
| GetDeployment (key : NamespacedName) (ans : res Deployment)
| CreateDeployment (obj : Deployment) (ans : option err)
| UpdateDeployment (obj : Deployment) (ans : option err)
| RecordEvent (obj : Deployer) (eventtype reason message : string).

(** The cluster and the process environment around one reconciler. *)
Record World := {
  environ : gmap string string;
  clock : Z;
  deployers : gmap NamespacedName Deployer;
  daemonSets : gmap NamespacedName DaemonSet;
  deployments : gmap NamespacedName Deployment;
  faults : list (option err);
}.

(** How a statement of [Reconcile] ends: control goes on with a value,
    the method returns [(ctrl.Result, error)], or the goroutine panics. *)
Inductive Outcome (A : Type) :=
| Next (a : A)
| Return (r : Result) (e : option err)
| Panic (msg : string).
Arguments Next {A} a.
Arguments Return {A} r e.
Arguments Panic {A} msg.

Definition M (A : Type) : Type := World → Outcome A * World * list Call.

Definition pure {A} (a : A) : M A := λ w, (Next a, w, []).
Definition return_ {A} (r : Result) (e : option err) : M A :=
  λ w, (Return r e, w, []).
Definition bind {A B} (m : M A) (k : A → M B) : M B :=
  λ w, match m w with
       | (Next a, w1, t1) =>
           match k a w1 with (o, w2, t2) => (o, w2, t1 ++ t2) end
       | (Return r e, w1, t1) => (Return r e, w1, t1)
       | (Panic msg, w1, t1) => (Panic msg, w1, t1)
       end.
Definition liftGo {A} (g : go A) : M A :=
  λ w, match g with
       | Fine a => (Next a, w, [])
       | Panics msg => (Panic msg, w, [])
       end.
Definition getenv : M (gmap string string) := λ w, (Next (environ w), w, []).
Definition now : M Z := λ w, (Next (clock w), w, []).

Notation "'let*' x ':=' m 'in' k" := (bind m (λ x, k))
  (at level 10, x name, m at level 100, k at level 200,
   format "'[v' 'let*'  x  ':='  m  'in' '/' k ']'").
Notation "m ';;' k" := (bind m (λ _, k))
  (at level 100, k at level 200, right associativity).

(** ** The Resource Store (controller-runtime's [client.Client]) *)

Definition setDeployers (w : World) (m : gmap NamespacedName Deployer) :=
  {| environ := environ w; clock := clock w; deployers := m;
     daemonSets := daemonSets w; deployments := deployments w;
     faults := faults w |}.
Definition setDaemonSets (w : World) (m : gmap NamespacedName DaemonSet) :=
  {| environ := environ w; clock := clock w; deployers := deployers w;
     daemonSets := m; deployments := deployments w; faults := faults w |}.
Definition setDeployments (w : World) (m : gmap NamespacedName Deployment) :=
  {| environ := environ w; clock := clock w; deployers := deployers w;
     daemonSets := daemonSets w; deployments := m; faults := faults w |}.
Definition setFaults (w : World) (fs : list (option err)) :=
  {| environ := environ w; clock := clock w; deployers := deployers w;
     daemonSets := daemonSets w; deployments := deployments w;
     faults := fs |}.

(** The fault injected into the next call, if any. *)
Definition nextFault (w : World) : option err * World :=
  match faults w with
  | [] => (None, w)
  | f :: fs => (f, setFaults w fs)
  end.

(** The double quote the API server puts around a name. *)
Definition quote : string := String (Ascii.ascii_of_nat 34) EmptyString.

Definition notFound (kind : string) (key : NamespacedName) : err :=
  StatusError ReasonNotFound
    (kind +:+ " " +:+ quote +:+ key.2 +:+ quote +:+ " not found").
Definition alreadyExists (kind : string) (key : NamespacedName) : err :=
  StatusError ReasonAlreadyExists
    (kind +:+ " " +:+ quote +:+ key.2 +:+ quote +:+ " already exists").

(** What the API server holds against the metadata of an update: the
    finalizers of the object sent that the stored object lacks, when the
    stored object has its deletion timestamp set; none otherwise. *)
Definition refusedFinalizers (cur obj : Deployer) : list string :=
  match DeletionTimestamp cur with
  | Some _ => filter (λ f, f ∉ Finalizers cur) (Finalizers obj)
  | None => []
  end.

(** A list of strings as the verb %#v prints its elements. *)
Fixpoint quoted (l : list string) : string :=
  match l with
  | [] => EmptyString
  | [f] => quote +:+ f +:+ quote
  | f :: l' => quote +:+ f +:+ quote +:+ ", " +:+ quoted l'
  end.

(** The error of the refused update, with the finalizers in the order
    they were sent. *)
Definition noNewFinalizers (name : string) (extra : list string) : err :=
  StatusError ReasonInvalid
    ("Deployer.cache.example.com " +:+ quote +:+ name +:+ quote
       +:+ " is invalid: metadata.finalizers: Forbidden: no new finalizers can be added if the object is being deleted, found new finalizers []string{"
       +:+ quoted extra +:+ "}").

Module client.

(** [r.Get(ctx, key, deployer)]. *)
Definition Get (key : NamespacedName) : M (res Deployer) := λ w,
  let (f, w1) := nextFault w in
  let ans := match f with
             | Some e => Err e
             | None => match deployers w1 !! key with
                       | Some d => Ok d
                       | None => Err (notFound "deployers.cache.example.com" key)
                       end
             end in
  (Next ans, w1, [GetDeployer key ans]).

(** [r.Status().Update(ctx, deployer)]: the status subresource takes
    the conditions of the object sent and nothing else; the answer is
    the object as stored. *)
Definition StatusUpdate (obj : Deployer) : M (res Deployer) := λ w,
  let (f, w1) := nextFault w in
  match f with
  | Some e => (Next (Err e), w1, [StatusUpdate obj (Err e)])
  | None =>
      match deployers w1 !! keyOf obj with
      | None =>
          let e := notFound "deployers.cache.example.com" (keyOf obj) in
          (Next (Err e), w1, [StatusUpdate obj (Err e)])
      | Some cur =>
          let new := withConditions cur (Conditions obj) in
          (Next (Ok new),
           setDeployers w1 (<[keyOf obj := new]> (deployers w1)),
           [StatusUpdate obj (Ok new)])
      end
  end.

(** [r.Update(ctx, deployer)]: the main resource takes the finalizers
    and the spec of the object sent, the status is left alone.  The API
    server validates the metadata first: on an object that is being
    deleted no finalizer may be added, and an update that adds one is
    refused as invalid.  An object marked for deletion is purged when
    its last finalizer goes. *)
Definition Update (obj : Deployer) : M (res Deployer) := λ w,
  let (f, w1) := nextFault w in
  match f with
  | Some e => (Next (Err e), w1, [UpdateDeployer obj (Err e)])
  | None =>
      match deployers w1 !! keyOf obj with
      | None =>
          let e := notFound "deployers.cache.example.com" (keyOf obj) in
          (Next (Err e), w1, [UpdateDeployer obj (Err e)])
      | Some cur =>
          match refusedFinalizers cur obj with
          | extra :: extras =>
              let e := noNewFinalizers (Name obj) (extra :: extras) in
              (Next (Err e), w1, [UpdateDeployer obj (Err e)])
          | [] =>
              let new :=
                withSpecOf (withFinalizers cur (Finalizers obj)) obj in
              let store :=
                match DeletionTimestamp new, Finalizers new with
                | Some _, [] => delete (keyOf obj) (deployers w1)
                | _, _ => <[keyOf obj := new]> (deployers w1)
                end in
              (Next (Ok new), setDeployers w1 store,
               [UpdateDeployer obj (Ok new)])
          end
      end
  end.

(** [r.Get(ctx, key, foundDaemonSet)]. *)
Definition GetDaemonSet (key : NamespacedName) : M (res DaemonSet) := λ w,
  let (f, w1) := nextFault w in
  let ans := match f with
             | Some e => Err e
             | None => match daemonSets w1 !! key with
                       | Some d => Ok d
                       | None => Err (notFound "daemonsets.apps" key)
                       end
             end in
  (Next ans, w1, [GetDaemonSet key ans]).

(** [r.Create(ctx, daemonSet)]. *)
Definition CreateDaemonSet (obj : DaemonSet) : M (option err) := λ w,
  let (f, w1) := nextFault w in
  let key := (dsNamespace obj, dsName obj) in
  match f with
  | Some e => (Next (Some e), w1, [CreateDaemonSet obj (Some e)])
  | None =>
      match daemonSets w1 !! key with
      | Some _ =>
          let e := alreadyExists "daemonsets.apps" key in
          (Next (Some e), w1, [CreateDaemonSet obj (Some e)])
      | None =>
          (Next None, setDaemonSets w1 (<[key := obj]> (daemonSets w1)),
           [CreateDaemonSet obj None])
      end
  end.

(** [r.Get(ctx, key, foundDeployment)]. *)
Definition GetDeployment (key : NamespacedName) : M (res Deployment) := λ w,
  let (f, w1) := nextFault w in
  let ans := match f with
             | Some e => Err e
             | None => match deployments w1 !! key with
                       | Some d => Ok d
                       | None => Err (notFound "deployments.apps" key)
                       end
             end in
  (Next ans, w1, [GetDeployment key ans]).

(** [r.Create(ctx, dep)]. *)
Definition CreateDeployment (obj : Deployment) : M (option err) := λ w,
  let (f, w1) := nextFault w in
  let key := (depNamespace obj, depName obj) in
  match f with
  | Some e => (Next (Some e), w1, [CreateDeployment obj (Some e)])
  | None =>
      match deployments w1 !! key with
      | Some _ =>
          let e := alreadyExists "deployments.apps" key in
          (Next (Some e), w1, [CreateDeployment obj (Some e)])
      | None =>
          (Next None, setDeployments w1 (<[key := obj]> (deployments w1)),
           [CreateDeployment obj None])
      end
  end.

(** [r.Update(ctx, foundDeployment)]. *)
Definition UpdateDeployment (obj : Deployment) : M (option err) := λ w,
  let (f, w1) := nextFault w in
  let key := (depNamespace obj, depName obj) in
  match f with
  | Some e => (Next (Some e), w1, [UpdateDeployment obj (Some e)])
  | None =>
      match deployments w1 !! key with
      | None =>
          let e := notFound "deployments.apps" key in
          (Next (Some e), w1, [UpdateDeployment obj (Some e)])
      | Some _ =>
          (Next None, setDeployments w1 (<[key := obj]> (deployments w1)),
           [UpdateDeployment obj None])
      end
  end.

End client.

(** [r.Recorder.Event(cr, eventtype, reason, message)]: fire and forget. *)
Definition Recorder_Event (cr : Deployer) (eventtype reason message : string)
  : M unit := λ w, (Next tt, w, [RecordEvent cr eventtype reason message]).

(** [ctrl.SetControllerReference(owner, object, scheme)] for a fresh
    object in namespace [objNs]: a namespaced owner may only own objects
    of its own namespace. *)
Definition SetControllerReference (owner : Deployer) (objNs : string)
  : res (list OwnerReference) :=
  if decide (Namespace owner = EmptyString) then
    Ok [ {| ownerKind := "Deployer"; ownerName := Name owner;
            ownerController := true |} ]
  else if decide (objNs = EmptyString) then
    Err (PlainError
      ("cluster-scoped resource must not have a namespace-scoped owner, owner's namespace "
         +:+ Namespace owner))
  else if decide (Namespace owner = objNs) then
    Ok [ {| ownerKind := "Deployer"; ownerName := Name owner;
            ownerController := true |} ]
  else
    Err (PlainError
      ("cross-namespace owner references are disallowed, owner's namespace "
         +:+ Namespace owner +:+ ", obj's namespace " +:+ objNs)).

(** ** Image resolution and label derivation *)

(** [imageForDeployer]: the value of DIRECTPV_IMAGE. *)
Definition imageForDeployer (env : gmap string string) : res string :=
  match env !! "DIRECTPV_IMAGE" with
  | Some image => Ok image
  | None =>
      Err (PlainError
        "Unable to find DIRECTPV_IMAGE environment variable with the image")
  end.

(** The other four look-ups format their error without an argument, so
    the message keeps the placeholder as it is written. *)
Definition missingImage : err :=
  PlainError
    "Unable to find #{imageEnvVar} environment variable with the image".

Definition imageForResizer (env : gmap string string) : res string :=
  match env !! "CSI_RESIZER" with
  | Some image => Ok image
  | None => Err missingImage
  end.

Definition imageForProvisioner (env : gmap string string) : res string :=
  match env !! "CSI_PROVISIONER" with
  | Some image => Ok image
  | None => Err missingImage
  end.

Definition imageForRegistrar (env : gmap string string) : res string :=
  match env !! "CSI_NODE_DRIVER_REGISTRAR" with
  | Some image => Ok image
  | None => Err missingImage
  end.

Definition imageForLivenessProbe (env : gmap string string) : res string :=
  match env !! "LIVENESS_PROBE" with
  | Some image => Ok image
  | None => Err missingImage
  end.

(** The map literal [labelsForMemcached] returns. *)
Definition labels (name imageTag : string) : gmap string string :=
  <["app.kubernetes.io/name" := "Memcached"]>
  (<["app.kubernetes.io/instance" := name]>
  (<["app.kubernetes.io/version" := imageTag]>
  (<["app.kubernetes.io/part-of" := "directpv-operator"]>
  (<["app.kubernetes.io/created-by" := "controller-manager"]> ∅)))).

(** [labelsForMemcached]: when the image is configured, its tag is
    element 1 of the image split at the colons; indexing past the end of
    the slice is a run-time panic. *)
Definition labelsForMemcached (env : gmap string string) (name : string)
  : go (gmap string string) :=
  match imageForDeployer env with
  | Ok image =>
      let pieces := gostrings.Split image ":"%char in
      match pieces !! 1%nat with
      | Some imageTag => Fine (labels name imageTag)
      | None =>
          Panics ("runtime error: index out of range [1] with length "
                    +:+ pretty (length pieces))
      end
  | Err _ => Fine (labels name EmptyString)
  end.

(** ** The child-object builders *)

(** [daemonSetForDeployer]. *)
Definition daemonSetForDeployer (env : gmap string string)
    (memcached : Deployer) : go (res DaemonSet) :=
  match labelsForMemcached env (Name memcached) with
  | Panics msg => Panics msg
  | Fine ls =>
  match imageForDeployer env with
  | Err e => Fine (Err e)
  | Ok controllerImage =>
  match imageForRegistrar env with
  | Err e => Fine (Err e)
  | Ok registrarImage =>
  match imageForLivenessProbe env with
  | Err e => Fine (Err e)
  | Ok livenessProbeImage =>
      match SetControllerReference memcached (Namespace memcached) with
      | Err e => Fine (Err e)
      | Ok owners =>
          Fine (Ok
            {| dsName := "node-server";
               dsNamespace := Namespace memcached;
               dsOwnerReferences := owners;
               dsMatchLabels := ls;
               dsTemplateLabels := ls;
               dsServiceAccountName := "directpv-min-io";
               dsContainers :=
                 [ {| containerName := "node-driver-registrar";
                      Image := registrarImage |};
                   {| containerName := "node-server";
                      Image := controllerImage |};
                   {| containerName := "node-controller";
                      Image := controllerImage |};
                   {| containerName := "liveness-probe";
                      Image := livenessProbeImage |} ] |})
      end
  end end end end.

(** [deploymentForDeployer]. *)
Definition deploymentForDeployer (env : gmap string string)
    (memcached : Deployer) : go (res Deployment) :=
  match labelsForMemcached env (Name memcached) with
  | Panics msg => Panics msg
  | Fine ls =>
  let replicas := Size memcached in
  match imageForDeployer env with
  | Err e => Fine (Err e)
  | Ok controllerImage =>
  match imageForResizer env with
  | Err e => Fine (Err e)
  | Ok resizerImage =>
  match imageForProvisioner env with
  | Err e => Fine (Err e)
  | Ok provisionerImage =>
      match SetControllerReference memcached (Namespace memcached) with
      | Err e => Fine (Err e)
      | Ok owners =>
          Fine (Ok
            {| depName := Name memcached;
               depNamespace := Namespace memcached;
               depOwnerReferences := owners;
               Replicas := Some replicas;
               depMatchLabels := ls;
               depTemplateLabels := ls;
               depServiceAccountName := "directpv-min-io";
               depContainers :=
                 [ {| containerName := "csi-provisioner";
                      Image := provisionerImage |};
                   {| containerName := "controller";
                      Image := controllerImage |};
                   {| containerName := "csi-resizer";
                      Image := resizerImage |} ] |})
      end
  end end end end.

(** ** The reconciler *)

Import controllerutil.

Definition condition (t : string) (s : ConditionStatus)
    (reason message : string) : Condition :=
  {| Type_ := t; Status := s; Reason := reason; Message := message;
     LastTransitionTime := None |}.

(** [meta.SetStatusCondition(&deployer.Status.Conditions, c)] on the
    local object, at the time the clock shows. *)
Definition setCondition (deployer : Deployer) (c : Condition) : M Deployer :=
  let* t := now in
  pure (withConditions deployer
          (meta.SetStatusCondition t (Conditions deployer) c)).

(** [doFinalizerOperationsForDeployer]: the cleanup is one audit event. *)
Definition doFinalizerOperationsForDeployer (cr : Deployer) : M unit :=
  Recorder_Event cr "Warning" "Deleting"
    ("Custom Resource " +:+ Name cr
       +:+ " is being deleted from the namespace " +:+ Namespace cr).

Definition nilDereference : string :=
  "runtime error: invalid memory address or nil pointer dereference".

(** [Reconcile].  The local variable [deployer] of the source is rebound
    where the source overwrites it; the namespace the source assigns
    before the first [Get] is overwritten by that [Get] and is read on no
    path on which the [Get] fails. *)
Definition Reconcile (req : NamespacedName) : M Empty_set :=
  (* Fetch the Deployer instance *)
  let* got := client.Get req in
  match got with
  | Err e =>
      if IsNotFound e then return_ noRequeue None
      else return_ noRequeue (Some e)
  | Ok deployer =>
  (* Set the status as Unknown when no status is available *)
  let* deployer :=
    match Conditions deployer with
    | [] =>
        let* deployer :=
          setCondition deployer
            (condition typeAvailableDeployer ConditionUnknown "Reconciling"
               "Starting reconciliation") in
        let* upd := client.StatusUpdate deployer in
        match upd with
        | Err e => return_ noRequeue (Some e)
        | Ok _ =>
            (* re-fetch after the status update *)
            let* got := client.Get req in
            match got with
            | Err e => return_ noRequeue (Some e)
            | Ok deployer => pure deployer
            end
        end
    | _ :: _ => pure deployer
    end in
  (* Add a finalizer *)
  let* deployer :=
    if negb (ContainsFinalizer deployer deployerFinalizer) then
      let (deployer, ok) := AddFinalizer deployer deployerFinalizer in
      if negb ok then return_ requeueNow None
      else
        let* upd := client.Update deployer in
        match upd with
        | Err e => return_ noRequeue (Some e)
        | Ok deployer => pure deployer
        end
    else pure deployer in
  (* Is the instance marked to be deleted? *)
  match DeletionTimestamp deployer with
  | Some _ =>
      (if ContainsFinalizer deployer deployerFinalizer then
         let* deployer :=
           setCondition deployer
             (condition typeDegradedDeployer ConditionUnknown "Finalizing"
                ("Performing finalizer operations for the custom resource: "
                   +:+ Name deployer +:+ " ")) in
         let* upd := client.StatusUpdate deployer in
         match upd with
         | Err e => return_ noRequeue (Some e)
         | Ok deployer =>
         doFinalizerOperationsForDeployer deployer ;;
         (* re-fetch before the second status update *)
         let* got := client.Get req in
         match got with
         | Err e => return_ noRequeue (Some e)
         | Ok deployer =>
         let* deployer :=
           setCondition deployer
             (condition typeDegradedDeployer ConditionTrue "Finalizing"
                ("Finalizer operations for custom resource "
                   +:+ Name deployer
                   +:+ " name were successfully accomplished")) in
         let* upd := client.StatusUpdate deployer in
         match upd with
         | Err e => return_ noRequeue (Some e)
         | Ok deployer =>
         let (deployer, ok) := RemoveFinalizer deployer deployerFinalizer in
         if negb ok then return_ requeueNow None
         else
           let* upd := client.Update deployer in
           match upd with
           | Err e => return_ noRequeue (Some e)
           | Ok _ => pure tt
           end
         end end end
       else pure tt) ;;
      return_ noRequeue None
  | None =>
  (* Check if the daemonset already exists, if not create a new one *)
  let* found := client.GetDaemonSet ("directpv", Name deployer) in
  match found with
  | Err e =>
      if IsNotFound e then
        let* env := getenv in
        let* built := liftGo (daemonSetForDeployer env deployer) in
        match built with
        | Err e =>
            let* deployer :=
              setCondition deployer
                (condition typeAvailableDeployer ConditionFalse "Reconciling"
                   ("Failed to create DaemonSet for the custom resource ("
                      +:+ Name deployer +:+ "): (" +:+ Error e +:+ ")")) in
            let* upd := client.StatusUpdate deployer in
            match upd with
            | Err e' => return_ noRequeue (Some e')
            | Ok _ => return_ noRequeue (Some e)
            end
        | Ok daemonSet =>
            let* created := client.CreateDaemonSet daemonSet in
            match created with
            | Some e => return_ noRequeue (Some e)
            | None => pure tt (* DaemonSet created successfully *)
            end
        end
      else return_ noRequeue (Some e)
  | Ok _ => pure tt
  end ;;
  (* Check if the deployment already exists, if not create a new one *)
  let* found := client.GetDeployment ("directpv", Name deployer) in
  let* foundDeployment :=
    match found with
    | Err e =>
        if IsNotFound e then
          let* env := getenv in
          let* built := liftGo (deploymentForDeployer env deployer) in
          match built with
          | Err e =>
              let* deployer :=
                setCondition deployer
                  (condition typeAvailableDeployer ConditionFalse
                     "Reconciling"
                     ("Failed to create Deployment for the custom resource ("
                        +:+ Name deployer +:+ "): (" +:+ Error e +:+ ")")) in
              let* upd := client.StatusUpdate deployer in
              match upd with
              | Err e' => return_ noRequeue (Some e')
              | Ok _ => return_ noRequeue (Some e)
              end
          | Ok dep =>
              let* created := client.CreateDeployment dep in
              match created with
              | Some e => return_ noRequeue (Some e)
              | None =>
                  (* Deployment created successfully: requeue later *)
                  return_ requeueAfterMinute None
              end
          end
        else return_ noRequeue (Some e)
    | Ok dep => pure dep
    end in
  (* Ensure the Deployment size is the one of the spec *)
  let size := Size deployer in
  match Replicas foundDeployment with
  | None => λ w, (Panic nilDereference, w, [])
  | Some replicas =>
  if decide (replicas ≠ size) then
    let foundDeployment := withReplicas foundDeployment size in
    let* upd := client.UpdateDeployment foundDeployment in
    match upd with
    | Some e =>
        (* re-fetch before the status update *)
        let* got := client.Get req in
        match got with
        | Err e' => return_ noRequeue (Some e')
        | Ok deployer =>
            let* deployer :=
              setCondition deployer
                (condition typeAvailableDeployer ConditionFalse "Resizing"
                   ("Failed to update the size for the custom resource ("
                      +:+ Name deployer +:+ "): (" +:+ Error e +:+ ")")) in
            let* upd := client.StatusUpdate deployer in
            match upd with
            | Err e' => return_ noRequeue (Some e')
            | Ok _ => return_ noRequeue (Some e)
            end
        end
    | None => return_ requeueNow None
    end
  else
    let* deployer :=
      setCondition deployer
        (condition typeAvailableDeployer ConditionTrue "Reconciling"
           ("Deployment for custom resource (" +:+ Name deployer
              +:+ ") with " +:+ pretty size
              +:+ " replicas created successfully")) in
    let* upd := client.StatusUpdate deployer in
    match upd with
    | Err e => return_ noRequeue (Some e)
    | Ok _ => return_ noRequeue None
    end
  end end end.

(** ** Reading the result of a pass *)

Definition outcomeOf {A} (p : Outcome A * World * list Call) : Outcome A :=
  p.1.1.
Definition worldOf {A} (p : Outcome A * World * list Call) : World := p.1.2.
Definition callsOf {A} (p : Outcome A * World * list Call) : list Call := p.2.

(** The kind of a call and whether it was answered without an error. *)
Definition brief (c : Call) : string * bool :=
  match c with
  | GetDeployer _ (Ok _) => ("get deployer", true)
  | GetDeployer _ (Err _) => ("get deployer", false)
  | StatusUpdate _ (Ok _) => ("update deployer status", true)
  | StatusUpdate _ (Err _) => ("update deployer status", false)
  | UpdateDeployer _ (Ok _) => ("update deployer", true)
  | UpdateDeployer _ (Err _) => ("update deployer", false)
  | GetDaemonSet _ (Ok _) => ("get daemonset", true)
  | GetDaemonSet _ (Err _) => ("get daemonset", false)
  | CreateDaemonSet _ None => ("create daemonset", true)
  | CreateDaemonSet _ (Some _) => ("create daemonset", false)
  | GetDeployment _ (Ok _) => ("get deployment", true)
  | GetDeployment _ (Err _) => ("get deployment", false)
  | CreateDeployment _ None => ("create deployment", true)
  | CreateDeployment _ (Some _) => ("create deployment", false)
  | UpdateDeployment _ None => ("update deployment", true)
  | UpdateDeployment _ (Some _) => ("update deployment", false)
  | RecordEvent _ _ _ _ => ("event", true)
  end.

(** The calls that ask the Resource Store to change something. *)
Definition isWrite (c : Call) : bool :=
  match c with
  | StatusUpdate _ _ | UpdateDeployer _ _ | CreateDaemonSet _ _
  | CreateDeployment _ _ | UpdateDeployment _ _ => true
  | _ => false
  end.

Definition isEvent (c : Call) : bool :=
  match c with RecordEvent _ _ _ _ => true | _ => false end.



(** The error a call was answered with, if it was. *)
Definition failure (c : Call) : option err :=
  match c with
  | GetDeployer _ (Err e) | StatusUpdate _ (Err e) | UpdateDeployer _ (Err e)
  | GetDaemonSet _ (Err e) | GetDeployment _ (Err e)
  | CreateDaemonSet _ (Some e) | CreateDeployment _ (Some e)
  | UpdateDeployment _ (Some e) => Some e
  | _ => None
  end.

(** The look-ups of the child objects. *)
Definition isChildLookup (c : Call) : bool :=
  match c with
  | GetDaemonSet _ _ | GetDeployment _ _ => true
  | _ => false
  end.

(** Several passes for the same request, one after the other; the calls
    of all of them in order. *)
Fixpoint passes (n : nat) (req : NamespacedName) (w : World)
  : World * list Call :=
  match n with
  | O => (w, [])
  | S n' =>
      let p := Reconcile req w in
      let q := passes n' req (worldOf p) in
      (q.1, callsOf p ++ q.2)
  end.

(** ** A small cluster to run the reconciler on *)

Module Sample.

Definition allImages : gmap string string :=
  <["DIRECTPV_IMAGE" := "quay.io/minio/directpv:v4.0.6"]>
  (<["CSI_RESIZER" := "csi-resizer:v1.8.0"]>
  (<["CSI_PROVISIONER" := "csi-provisioner:v3.5.0"]>
  (<["CSI_NODE_DRIVER_REGISTRAR" := "csi-node-driver-registrar:v2.8.0"]>
  (<["LIVENESS_PROBE" := "livenessprobe:v2.10.0"]> ∅)))).

Definition started : Condition :=
  {| Type_ := "Available"; Status := ConditionUnknown;
     Reason := "Reconciling"; Message := "Starting reconciliation";
     LastTransitionTime := Some 900 |}.

(** A resource nobody has reconciled yet. *)
Definition fresh (name : string) (size : Z) : Deployer :=
  {| Name := name; Namespace := "directpv"; Finalizers := [];
     DeletionTimestamp := None; Size := size; ContainerPort := 10443;
     Conditions := [] |}.

(** A live resource with its status initialised and its finalizer on. *)
Definition ready (name : string) (size : Z) : Deployer :=
  {| Name := name; Namespace := "directpv";
     Finalizers := [deployerFinalizer];
     DeletionTimestamp := None; Size := size; ContainerPort := 10443;
     Conditions := [started] |}.

(** A resource marked for deletion that carries the given finalizers. *)
Definition deleting (name : string) (fs : list string) : Deployer :=
  {| Name := name; Namespace := "directpv"; Finalizers := fs;
     DeletionTimestamp := Some 950; Size := 3; ContainerPort := 10443;
     Conditions := [started] |}.

Definition cluster (d : Deployer) (fs : list (option err)) : World :=
  {| environ := allImages; clock := 1000;
     deployers := {[ keyOf d := d ]};
     daemonSets := ∅; deployments := ∅; faults := fs |}.

(** The same cluster under another process environment. *)
Definition clusterWith (env : gmap string string) (d : Deployer)
    (fs : list (option err)) : World :=
  {| environ := env; clock := 1000;
     deployers := {[ keyOf d := d ]};
     daemonSets := ∅; deployments := ∅; faults := fs |}.

(** What [daemonSetForDeployer] builds for a resource of that name
    in the namespace directpv. *)
Definition daemonSet (name : string) : DaemonSet :=
  {| dsName := "node-server"; dsNamespace := "directpv";
     dsOwnerReferences :=
       [ {| ownerKind := "Deployer"; ownerName := name;
            ownerController := true |} ];
     dsMatchLabels := labels name "v4.0.6";
     dsTemplateLabels := labels name "v4.0.6";
     dsServiceAccountName := "directpv-min-io";
     dsContainers :=
       [ {| containerName := "node-driver-registrar";
            Image := "csi-node-driver-registrar:v2.8.0" |};
         {| containerName := "node-server";
            Image := "quay.io/minio/directpv:v4.0.6" |};
         {| containerName := "node-controller";
            Image := "quay.io/minio/directpv:v4.0.6" |};
         {| containerName := "liveness-probe";
            Image := "livenessprobe:v2.10.0" |} ] |}.

(** What [deploymentForDeployer] builds for it, at that size. *)
Definition deployment (name : string) (size : Z) : Deployment :=
  {| depName := name; depNamespace := "directpv";
     depOwnerReferences :=
       [ {| ownerKind := "Deployer"; ownerName := name;
            ownerController := true |} ];
     Replicas := Some size;
     depMatchLabels := labels name "v4.0.6";
     depTemplateLabels := labels name "v4.0.6";
     depServiceAccountName := "directpv-min-io";
     depContainers :=
       [ {| containerName := "csi-provisioner";
            Image := "csi-provisioner:v3.5.0" |};
         {| containerName := "controller";
            Image := "quay.io/minio/directpv:v4.0.6" |};
         {| containerName := "csi-resizer";
            Image := "csi-resizer:v1.8.0" |} ] |}.


(** The resource [deleting name [deployerFinalizer]] as the pass that
    finalizes it at time 1000 sends it last, its finalizer taken off. *)
Definition finalized (name : string) : Deployer :=
  {| Name := name; Namespace := "directpv"; Finalizers := [];
     DeletionTimestamp := Some 950; Size := 3; ContainerPort := 10443;
     Conditions :=
       [ started;
         {| Type_ := "Degraded"; Status := ConditionTrue;
            Reason := "Finalizing";
            Message := "Finalizer operations for custom resource "
                         +:+ name
                         +:+ " name were successfully accomplished";
            LastTransitionTime := Some 1000 |} ] |}.

(** A cluster in which both children of [d] are found under the name
    of [d], the Deployment running [replicas] replicas. *)
Definition running (d : Deployer) (replicas : Z)
    (fs : list (option err)) : World :=
  {| environ := allImages; clock := 1000;
     deployers := {[ keyOf d := d ]};
     daemonSets := {[ ("directpv", Name d) := daemonSet (Name d) ]};
     deployments :=
       {[ ("directpv", Name d) := deployment (Name d) replicas ]};
     faults := fs |}.

Definition timeout : err := StatusError ReasonOther "context deadline exceeded".

End Sample.

(** ** Conditions the reconciler writes *)

(** The condition a pass writes when it finds none. *)
Definition startingCondition (t : Z) : Condition :=
  {| Type_ := "Available"; Status := ConditionUnknown;
     Reason := "Reconciling"; Message := "Starting reconciliation";
     LastTransitionTime := Some t |}.

(** The condition a pass writes when nothing is left to do. *)
Definition availableCondition (d : Deployer) : Condition :=
  condition typeAvailableDeployer ConditionTrue "Reconciling"
    ("Deployment for custom resource (" +:+ Name d +:+ ") with "
       +:+ pretty (Size d) +:+ " replicas created successfully").

(** ** One call at a time

    [emits m c Q]: the action [m] is one call to a collaborator.  It
    always hands control back, leaves exactly the entry [c a] in the list
    of calls, its answer satisfies [Q], and it touches neither the clock
    nor the process environment. *)

Definition emits {A} (m : M A) (c : A → Call) (Q : A → Prop) : Prop :=
  ∀ w, ∃ a w1,
    m w = (Next a, w1, [c a]) ∧ Q a
    ∧ clock w1 = clock w ∧ environ w1 = environ w.

(** ** What a pass leaves alone

    [stable w w']: from [w] to [w'] the environment and the clock are the
    same, every DaemonSet of [w] is still there unchanged, every
    Deployment of [w] is still there, and no Deployer has appeared. *)

Definition stable (w w' : World) : Prop :=
  environ w' = environ w ∧ clock w' = clock w
  ∧ (∀ key ds, daemonSets w !! key = Some ds → daemonSets w' !! key = Some ds)
  ∧ (∀ key, is_Some (deployments w !! key) → is_Some (deployments w' !! key))
  ∧ (∀ key, is_Some (deployers w' !! key) → is_Some (deployers w !! key)).

Definition keeps {A} (m : M A) : Prop :=
  ∀ w o w' tr, m w = (o, w', tr) → stable w w'.

(** * Properties *)

(** ** The pass monad *)

Lemma bind_assoc {A B C} (m : M A) (k1 : A → M B) (k2 : B → M C) w :
  bind (bind m k1) k2 w = bind m (λ a, bind (k1 a) k2) w.
Proof.
  unfold bind. destruct (m w) as [[[a| |] w1] t1]; try reflexivity.
  destruct (k1 a w1) as [[[b| |] w2] t2]; try reflexivity.
  destruct (k2 b w2) as [[o3 w3] t3]. by rewrite app_assoc.
Qed.

Lemma bind_pure {A B} (a : A) (k : A → M B) w : bind (pure a) k w = k a w.
Proof. unfold bind, pure. by destruct (k a w) as [[? ?] ?]. Qed.

Lemma bind_return {A B} r e (k : A → M B) w :
  bind (return_ r e) k w = (Return r e, w, []).
Proof. reflexivity. Qed.

Lemma bind_setCondition {B} d c (k : Deployer → M B) w :
  bind (setCondition d c) k w =
  k (withConditions d (meta.SetStatusCondition (clock w) (Conditions d) c)) w.
Proof.
  unfold setCondition. rewrite bind_assoc. unfold now, bind at 1.
  cbn beta iota. rewrite bind_pure. by destruct (k _ w) as [[? ?] ?].
Qed.

Lemma bind_getenv {B} (k : gmap string string → M B) w :
  bind getenv k w = k (environ w) w.
Proof. unfold bind, getenv. by destruct (k _ w) as [[? ?] ?]. Qed.

Lemma bind_liftGo {A B} (g : go A) (k : A → M B) w :
  bind (liftGo g) k w =
  match g with Fine a => k a w | Panics msg => (Panic msg, w, []) end.
Proof.
  unfold bind, liftGo. destruct g; [|done]. by destruct (k _ w) as [[? ?] ?].
Qed.

Lemma nextFault_frame w f w1 :
  nextFault w = (f, w1) →
  clock w1 = clock w ∧ environ w1 = environ w
  ∧ deployers w1 = deployers w ∧ daemonSets w1 = daemonSets w
  ∧ deployments w1 = deployments w.
Proof.
  unfold nextFault. destruct (faults w); intros [= <- <-]; done.
Qed.

Ltac open_call w :=
  let f := fresh "f" in
  let w1 := fresh "w" in
  let E := fresh "E" in
  destruct (nextFault w) as [f w1] eqn:E;
  apply nextFault_frame in E as (? & ? & ? & ? & ?).

Lemma Get_emits key : emits (client.Get key) (GetDeployer key) (λ _, True).
Proof. intros w. unfold client.Get. open_call w. eauto 10. Qed.

Lemma StatusUpdate_emits obj :
  emits (client.StatusUpdate obj) (StatusUpdate obj)
    (λ ans, ∀ new, ans = Ok new → Conditions new = Conditions obj).
Proof.
  intros w. unfold client.StatusUpdate. open_call w.
  destruct f as [e|]; [eauto 10 with congruence|].
  destruct (deployers _ !! keyOf obj) as [cur|]; [|eauto 10 with congruence].
  do 2 eexists. split; [reflexivity|]. split; [|done].
  by intros new [= <-].
Qed.

Lemma Update_emits obj :
  emits (client.Update obj) (UpdateDeployer obj)
    (λ ans, ∀ new, ans = Ok new →
       Finalizers new = Finalizers obj ∧ Size new = Size obj).
Proof.
  intros w. unfold client.Update. open_call w.
  destruct f as [e|]; [eauto 10 with congruence|].
  destruct (deployers _ !! keyOf obj) as [cur|]; [|eauto 10 with congruence].
  destruct (refusedFinalizers cur obj); [|eauto 10 with congruence].
  do 2 eexists. split; [reflexivity|]. split; [|done].
  by intros new [= <-].
Qed.

Lemma GetDaemonSet_emits key :
  emits (client.GetDaemonSet key) (GetDaemonSet key) (λ _, True).
Proof. intros w. unfold client.GetDaemonSet. open_call w. eauto 10. Qed.

Lemma CreateDaemonSet_emits obj :
  emits (client.CreateDaemonSet obj) (CreateDaemonSet obj) (λ _, True).
Proof.
  intros w. unfold client.CreateDaemonSet. open_call w.
  destruct f as [e|]; [eauto 10|]. destruct (daemonSets _ !! _); eauto 10.
Qed.

Lemma GetDeployment_emits key :
  emits (client.GetDeployment key) (GetDeployment key) (λ _, True).
Proof. intros w. unfold client.GetDeployment. open_call w. eauto 10. Qed.

Lemma CreateDeployment_emits obj :
  emits (client.CreateDeployment obj) (CreateDeployment obj) (λ _, True).
Proof.
  intros w. unfold client.CreateDeployment. open_call w.
  destruct f as [e|]; [eauto 10|]. destruct (deployments _ !! _); eauto 10.
Qed.

Lemma UpdateDeployment_emits obj :
  emits (client.UpdateDeployment obj) (UpdateDeployment obj) (λ _, True).
Proof.
  intros w. unfold client.UpdateDeployment. open_call w.
  destruct f as [e|]; [eauto 10|]. destruct (deployments _ !! _); eauto 10.
Qed.

Lemma doFinalizerOperations_emits cr :
  emits (doFinalizerOperationsForDeployer cr)
    (λ _, RecordEvent cr "Warning" "Deleting"
            ("Custom Resource " +:+ Name cr
               +:+ " is being deleted from the namespace " +:+ Namespace cr))
    (λ _, True).
Proof.
  intros w. unfold doFinalizerOperationsForDeployer, Recorder_Event.
  eauto 10.
Qed.

Lemma bind_emits_inv {A B} (m : M A) c Q (k : A → M B) w o w' tr :
  emits m c Q → bind m k w = (o, w', tr) →
  ∃ a w1 tr', k a w1 = (o, w', tr') ∧ tr = c a :: tr' ∧ Q a
              ∧ clock w1 = clock w ∧ environ w1 = environ w.
Proof.
  intros Hm. destruct (Hm w) as (a & w1 & E & HQ & Hc & He).
  unfold bind. rewrite E.
  destruct (k a w1) as [[o2 w2] t2] eqn:Ek. intros [= <- <- <-].
  eauto 10.
Qed.

(** ** Walking through a pass

    [step H] advances the equation [H : m w = (out, w', calls)] by one
    statement of the method: a call is replaced by its answer, a branch
    by its cases. *)

Tactic Notation "call_step" hyp(H) uconstr(lem) :=
  apply (bind_emits_inv _ _ _ _ _ _ _ _ lem) in H
    as (? & ? & ? & H & -> & ? & ? & ?).

Ltac settle_frame H :=
  repeat match goal with
         | E : clock _ = clock _ |- _ => rewrite E in H
         | E : environ _ = environ _ |- _ => rewrite E in H
         end.

Ltac quiet H :=
  lazymatch type of H with
  | bind (bind _ _) _ _ = _ => rewrite bind_assoc in H
  | bind (pure _) _ _ = _ => rewrite bind_pure in H
  | bind (return_ _ _) _ _ = _ => rewrite bind_return in H
  | bind (setCondition _ _) _ _ = _ =>
      rewrite bind_setCondition in H; settle_frame H
  | bind getenv _ _ = _ => rewrite bind_getenv in H; settle_frame H
  | bind (liftGo _) _ _ = _ => rewrite bind_liftGo in H
  | bind (match ?x with _ => _ end) _ _ = _ =>
      destruct x eqn:?; cbv beta iota zeta in H
  | (match ?x with _ => _ end) _ = _ =>
      destruct x eqn:?; cbv beta iota zeta in H
  | match ?x with _ => _ end = _ =>
      destruct x eqn:?; cbv beta iota zeta in H
  | return_ _ _ _ = _ => unfold return_ in H; injection H as <- <- <-
  | pure _ _ = _ => unfold pure in H; injection H as <- <- <-
  | (_, _, _) = _ => injection H as <- <- <-
  end.

Ltac call H :=
  lazymatch type of H with
  | bind (client.Get _) _ _ = _ => call_step H (Get_emits _)
  | bind (client.StatusUpdate _) _ _ = _ => call_step H (StatusUpdate_emits _)
  | bind (client.Update _) _ _ = _ => call_step H (Update_emits _)
  | bind (client.GetDaemonSet _) _ _ = _ => call_step H (GetDaemonSet_emits _)
  | bind (client.CreateDaemonSet _) _ _ = _ =>
      call_step H (CreateDaemonSet_emits _)
  | bind (client.GetDeployment _) _ _ = _ =>
      call_step H (GetDeployment_emits _)
  | bind (client.CreateDeployment _) _ _ = _ =>
      call_step H (CreateDeployment_emits _)
  | bind (client.UpdateDeployment _) _ _ = _ =>
      call_step H (UpdateDeployment_emits _)
  | bind (doFinalizerOperationsForDeployer _) _ _ = _ =>
      call_step H (doFinalizerOperations_emits _)
  end; cbv beta iota zeta in H.

Ltac step H := first [quiet H | call H].

(** Up to and including the next call, on every branch. *)
Ltac to_next_call H := repeat (quiet H); try (call H).

Ltac tidy :=
  repeat match goal with
         | E : True |- _ => clear E
         | E : clock _ = clock _ |- _ => clear E
         | E : environ _ = environ _ |- _ => clear E
         end.

(** The pass as an equation to walk through. *)
Ltac enter req w H :=
  destruct (Reconcile req w) as [[? ?] ?] eqn:H;
  unfold outcomeOf, worldOf, callsOf; cbn [fst snd];
  unfold Reconcile in H.

(** Every path of [Reconcile], one goal per path. *)
Ltac walk req w :=
  let H := fresh "Hpass" in
  enter req w H; repeat (step H); tidy.

(** Where an element sits in a list that is written out. *)
Lemma cons_eq_app_cons {A} (x y : A) l pre post :
  x :: l = pre ++ y :: post →
  (pre = [] ∧ x = y ∧ l = post)
  ∨ ∃ pre', pre = x :: pre' ∧ l = pre' ++ y :: post.
Proof. destruct pre as [|z pre]; intros [= -> ->]; eauto. Qed.

Lemma nil_eq_app_cons {A} (y : A) pre post : [] = pre ++ y :: post → False.
Proof. by destruct pre. Qed.

Ltac locate H :=
  first
    [ apply nil_eq_app_cons in H; destruct H
    | let Hx := fresh "Hx" in
      apply cons_eq_app_cons in H as [(-> & Hx & ?) | (? & -> & H)];
      [ first [ discriminate Hx | simplify_eq ] | locate H ] ].

(** ** Facts about the library functions and the store *)

Lemma AddFinalizer_contains d f d' b :
  AddFinalizer d f = (d', b) → f ∈ Finalizers d'.
Proof.
  unfold AddFinalizer. case_bool_decide as Hin; intros [= <- <-]; [done|].
  cbn. apply elem_of_app. right. by apply list_elem_of_singleton.
Qed.

Lemma Split_without_separator s c :
  gostrings.Contains s c = false → gostrings.Split s c = [s].
Proof.
  induction s as [|a s IH]; cbn; [done|].
  case_decide; [done|]. intros Hs. by rewrite IH.
Qed.


Lemma bind_call {A B} (m : M A) (k : A → M B) w a w1 c o w2 t2 :
  m w = (Next a, w1, [c]) → k a w1 = (o, w2, t2) →
  bind m k w = (o, w2, c :: t2).
Proof. intros Hm Hk. unfold bind. by rewrite Hm, Hk. Qed.

Lemma nextFault_none w : faults w = [] → nextFault w = (None, w).
Proof. unfold nextFault. by intros ->. Qed.

Lemma Get_quiet key w d :
  faults w = [] → deployers w !! key = Some d →
  client.Get key w = (Next (Ok d), w, [GetDeployer key (Ok d)]).
Proof.
  intros Hf Hd. unfold client.Get. rewrite (nextFault_none _ Hf).
  by rewrite Hd.
Qed.

Lemma GetDaemonSet_quiet key w ds :
  faults w = [] → daemonSets w !! key = Some ds →
  client.GetDaemonSet key w = (Next (Ok ds), w, [GetDaemonSet key (Ok ds)]).
Proof.
  intros Hf Hd. unfold client.GetDaemonSet. rewrite (nextFault_none _ Hf).
  by rewrite Hd.
Qed.

Lemma GetDeployment_quiet key w dep :
  faults w = [] → deployments w !! key = Some dep →
  client.GetDeployment key w
  = (Next (Ok dep), w, [GetDeployment key (Ok dep)]).
Proof.
  intros Hf Hd. unfold client.GetDeployment. rewrite (nextFault_none _ Hf).
  by rewrite Hd.
Qed.







Lemma CreateDaemonSet_quiet obj w :
  faults w = [] → daemonSets w !! (dsNamespace obj, dsName obj) = None →
  client.CreateDaemonSet obj w
  = (Next None,
     setDaemonSets w (<[(dsNamespace obj, dsName obj) := obj]> (daemonSets w)),
     [CreateDaemonSet obj None]).
Proof.
  intros Hf Hd. unfold client.CreateDaemonSet.
  rewrite (nextFault_none _ Hf). cbv zeta. by rewrite Hd.
Qed.

Lemma CreateDaemonSet_taken obj w old key :
  faults w = [] → (dsNamespace obj, dsName obj) = key →
  daemonSets w !! key = Some old →
  client.CreateDaemonSet obj w
  = (Next (Some (alreadyExists "daemonsets.apps" key)), w,
     [CreateDaemonSet obj (Some (alreadyExists "daemonsets.apps" key))]).
Proof.
  intros Hf <- Hd. unfold client.CreateDaemonSet.
  rewrite (nextFault_none _ Hf). cbv zeta. by rewrite Hd.
Qed.

Lemma CreateDeployment_quiet obj w :
  faults w = [] → deployments w !! (depNamespace obj, depName obj) = None →
  client.CreateDeployment obj w
  = (Next None,
     setDeployments w
       (<[(depNamespace obj, depName obj) := obj]> (deployments w)),
     [CreateDeployment obj None]).
Proof.
  intros Hf Hd. unfold client.CreateDeployment.
  rewrite (nextFault_none _ Hf). cbv zeta. by rewrite Hd.
Qed.

Lemma UpdateDeployment_quiet obj w old :
  faults w = [] → deployments w !! (depNamespace obj, depName obj) = Some old →
  client.UpdateDeployment obj w
  = (Next None,
     setDeployments w
       (<[(depNamespace obj, depName obj) := obj]> (deployments w)),
     [UpdateDeployment obj None]).
Proof.
  intros Hf Hd. unfold client.UpdateDeployment.
  rewrite (nextFault_none _ Hf). cbv zeta. by rewrite Hd.
Qed.

Lemma StatusUpdate_quiet obj cur w :
  faults w = [] → deployers w !! keyOf obj = Some cur →
  client.StatusUpdate obj w
  = (Next (Ok (withConditions cur (Conditions obj))),
     setDeployers w
       (<[keyOf obj := withConditions cur (Conditions obj)]> (deployers w)),
     [StatusUpdate obj (Ok (withConditions cur (Conditions obj)))]).
Proof.
  intros Hf Hd. unfold client.StatusUpdate.
  rewrite (nextFault_none _ Hf). by rewrite Hd.
Qed.

Lemma GetDaemonSet_missing key w :
  faults w = [] → daemonSets w !! key = None →
  client.GetDaemonSet key w
  = (Next (Err (notFound "daemonsets.apps" key)), w,
     [GetDaemonSet key (Err (notFound "daemonsets.apps" key))]).
Proof.
  intros Hf Hd. unfold client.GetDaemonSet. rewrite (nextFault_none _ Hf).
  by rewrite Hd.
Qed.

Lemma GetDeployment_missing key w :
  faults w = [] → deployments w !! key = None →
  client.GetDeployment key w
  = (Next (Err (notFound "deployments.apps" key)), w,
     [GetDeployment key (Err (notFound "deployments.apps" key))]).
Proof.
  intros Hf Hd. unfold client.GetDeployment. rewrite (nextFault_none _ Hf).
  by rewrite Hd.
Qed.

Lemma SetControllerReference_same_namespace owner :
  SetControllerReference owner (Namespace owner)
  = Ok [ {| ownerKind := "Deployer"; ownerName := Name owner;
            ownerController := true |} ].
Proof.
  unfold SetControllerReference. repeat case_decide; congruence.
Qed.

Lemma daemonSet_built env d ds :
  daemonSetForDeployer env d = Fine (Ok ds) →
  dsName ds = "node-server" ∧ dsNamespace ds = Namespace d.
Proof.
  unfold daemonSetForDeployer.
  rewrite SetControllerReference_same_namespace.
  destruct (labelsForMemcached _ _); [|done].
  destruct (imageForDeployer _); [|done].
  destruct (imageForRegistrar _); [|done].
  destruct (imageForLivenessProbe _); [|done].
  by intros [= <-].
Qed.

Lemma deployment_built env d dep :
  deploymentForDeployer env d = Fine (Ok dep) →
  depName dep = Name d ∧ depNamespace dep = Namespace d
  ∧ Replicas dep = Some (Size d).
Proof.
  unfold deploymentForDeployer.
  rewrite SetControllerReference_same_namespace. cbv zeta.
  destruct (labelsForMemcached _ _); [|done].
  destruct (imageForDeployer _); [|done].
  destruct (imageForResizer _); [|done].
  destruct (imageForProvisioner _); [|done].
  by intros [= <-].
Qed.

Lemma notFound_IsNotFound kind key : IsNotFound (notFound kind key) = true.
Proof. reflexivity. Qed.

(** One call of a pass that is run by hand. *)
Ltac run_call lem := eapply bind_call; [by apply lem|]; cbv beta iota.

Lemma Split_nonempty s c : ∃ piece pieces, gostrings.Split s c = piece :: pieces.
Proof.
  induction s as [|a s (p & ps & IH)]; cbn; [eauto|].
  case_decide; [eauto|]. rewrite IH. eauto.
Qed.

Lemma Split_with_separator s c :
  gostrings.Contains s c = true → is_Some (gostrings.Split s c !! 1%nat).
Proof.
  induction s as [|a s IH]; cbn; [done|].
  case_decide.
  - intros _. destruct (Split_nonempty s c) as (p & ps & ->). cbn. eauto.
  - intros Hs. specialize (IH Hs).
    destruct (Split_nonempty s c) as (p & ps & Heq). by rewrite Heq in *.
Qed.

Lemma Split_at_first s c rest :
  gostrings.Contains s c = false →
  gostrings.Split (s +:+ String c rest) c = s :: gostrings.Split rest c.
Proof.
  induction s as [|a s IH].
  - intros _. change (EmptyString +:+ String c rest) with (String c rest).
    cbn [gostrings.Split]. by rewrite decide_True.
  - change (String a s +:+ String c rest)
      with (String a (s +:+ String c rest)).
    cbn [gostrings.Split gostrings.Contains].
    case_decide; [done|]. intros Hs. by rewrite IH.
Qed.

Lemma labelsForMemcached_panics env name msg :
  labelsForMemcached env name = Panics msg →
  ∃ image, env !! "DIRECTPV_IMAGE" = Some image
           ∧ gostrings.Contains image ":" = false
           ∧ msg = "runtime error: index out of range [1] with length 1".
Proof.
  unfold labelsForMemcached, imageForDeployer.
  destruct (env !! "DIRECTPV_IMAGE") as [image|] eqn:Himage; [|done].
  cbv zeta.
  destruct (gostrings.Contains image ":") eqn:Hc.
  - destruct (Split_with_separator _ _ Hc) as [tag ->]. done.
  - rewrite (Split_without_separator _ _ Hc). cbn. intros [= <-]. eauto.
Qed.

Lemma daemonSetForDeployer_panics env d msg :
  daemonSetForDeployer env d = Panics msg → labelsForMemcached env (Name d) = Panics msg.
Proof.
  unfold daemonSetForDeployer.
  destruct (labelsForMemcached _ _); [|by intros [= ->]].
  repeat case_match; done.
Qed.

Lemma deploymentForDeployer_panics env d msg :
  deploymentForDeployer env d = Panics msg → labelsForMemcached env (Name d) = Panics msg.
Proof.
  unfold deploymentForDeployer.
  destruct (labelsForMemcached _ _); [|by intros [= ->]].
  cbv zeta. repeat case_match; done.
Qed.

Lemma SetStatusCondition_found t cs new :
  ∃ c, meta.FindStatusCondition (meta.SetStatusCondition t cs new) (Type_ new)
       = Some c
       ∧ Status c = Status new ∧ Reason c = Reason new
       ∧ Message c = Message new.
Proof.
  unfold meta.SetStatusCondition.
  destruct (meta.FindStatusCondition cs (Type_ new)) as [old|] eqn:Hfind.
  - induction cs as [|c cs IH]; [done|]. cbn in *.
    case_decide as Ht.
    + cbn. rewrite decide_True by done. eexists. split; [done|]. done.
    + cbn. rewrite decide_False by done. by apply IH.
  - induction cs as [|c cs IH]; cbn in *.
    + rewrite decide_True by done. eexists. split; [done|]. done.
    + case_decide as Ht; [done|]. by apply IH.
Qed.

Lemma when_initialised {A} (l : list Condition) (a b : A) :
  l ≠ [] → match l with [] => a | _ :: _ => b end = b.
Proof. by destruct l. Qed.

(** ** Claims *)




(** C2 (the code departs from the claim).  The AgentWorkload is looked
    up under the name of the resource but built under the fixed name
    node-server: for a resource named x the object created in the first
    pass is stored under node-server, the look-up of the second pass
    under x does not find it, and the second creation is refused as
    a duplicate. *)
Theorem C2_agent_created_under_another_name :
  let w := Sample.cluster (Sample.ready "x" 3) [] in
  let p1 := Reconcile ("directpv", "x") w in
  let p2 := Reconcile ("directpv", "x") (worldOf p1) in
  In (GetDaemonSet ("directpv", "x")
        (Err (notFound "daemonsets.apps" ("directpv", "x")))) (callsOf p1)
  ∧ In (CreateDaemonSet (Sample.daemonSet "x") None) (callsOf p1)
  ∧ dsName (Sample.daemonSet "x") = "node-server"
  ∧ daemonSets (worldOf p1) !! ("directpv", "node-server")
    = Some (Sample.daemonSet "x")
  ∧ daemonSets (worldOf p1) !! ("directpv", "x") = None
  ∧ map brief (callsOf p2)
    = [ ("get deployer", true); ("get daemonset", false);
        ("create daemonset", false) ]
  ∧ outcomeOf p2
    = Return noRequeue
        (Some (alreadyExists "daemonsets.apps" ("directpv", "node-server"))).
Proof.
  vm_compute. repeat split; try reflexivity.
  all: repeat (first [left; reflexivity | right]).
Qed.

(** C3 (the code departs from the claim).  A resource marked for
    deletion that another finalizer keeps in the store: the first pass
    removes the controller's finalizer.  The second pass finds it absent
    and fires the add-finalizer transition although the deletion
    timestamp is set: its second call is an update that sends the
    resource with the finalizer added.  The API server refuses to add a
    finalizer to an object that is being deleted, so the tag is not
    stored again; but the pass ends with that error where the claim has
    it do nothing, and every replay does the same. *)
Theorem C3_add_finalizer_fires_after_removal :
  let key := ("directpv", "x") in
  let w := Sample.cluster
             (Sample.deleting "x" [deployerFinalizer; "other"]) [] in
  let p1 := Reconcile key w in
  let p2 := Reconcile key (worldOf p1) in
  let p3 := Reconcile key (worldOf p2) in
  let refusal := noNewFinalizers "x" [deployerFinalizer] in
  Finalizers <$> deployers (worldOf p1) !! key = Some ["other"]
  ∧ DeletionTimestamp <$> deployers (worldOf p1) !! key = Some (Some 950)
  ∧ (∃ cur,
       deployers (worldOf p1) !! key = Some cur
       ∧ callsOf p2
         = [ GetDeployer key (Ok cur);
             UpdateDeployer (withFinalizers cur ["other"; deployerFinalizer])
               (Err refusal) ]
       ∧ DeletionTimestamp
           (withFinalizers cur ["other"; deployerFinalizer]) = Some 950)
  ∧ outcomeOf p2 = Return noRequeue (Some refusal)
  ∧ Finalizers <$> deployers (worldOf p2) !! key = Some ["other"]
  ∧ callsOf p3 = callsOf p2
  ∧ outcomeOf p3 = outcomeOf p2.
Proof.
  vm_compute. do 2 (split; [reflexivity|]).
  split; [eexists; repeat split; reflexivity|].
  repeat split; reflexivity.
Qed.

(** C4 (the code departs from the claim).  A pass on a resource whose
    deletion timestamp is set and whose finalizer is absent is no no-op:
    its second call is a write, the update that sends the resource with
    the finalizer added.  The API server refuses to add a finalizer to
    an object that is being deleted, and the pass returns that error
    instead of success; when the update fails for another reason the
    pass returns that one. *)
Theorem C4_deleted_without_finalizer_is_not_skipped :
  let d := Sample.deleting "x" ["other"] in
  let p := Reconcile ("directpv", "x") (Sample.cluster d []) in
  let p' := Reconcile ("directpv", "x")
              (Sample.cluster d [None; Some Sample.timeout]) in
  let refusal := noNewFinalizers "x" [deployerFinalizer] in
  DeletionTimestamp d = Some 950
  ∧ ContainsFinalizer d deployerFinalizer = false
  ∧ callsOf p
    = [ GetDeployer ("directpv", "x") (Ok d);
        UpdateDeployer (withFinalizers d ["other"; deployerFinalizer])
          (Err refusal) ]
  ∧ length (List.filter isWrite (callsOf p)) = 1%nat
  ∧ outcomeOf p = Return noRequeue (Some refusal)
  ∧ map brief (callsOf p')
    = [ ("get deployer", true); ("update deployer", false) ]
  ∧ outcomeOf p' = Return noRequeue (Some Sample.timeout).
Proof. vm_compute. repeat split; reflexivity. Qed.




(** C6.  When the resource a pass fetches has no condition, the first
    call after the fetch, and so the first write of the pass, is the
    status update that carries the single condition Available=Unknown
    with reason Reconciling; on success that condition is what the store
    persists, and the next call is the re-fetch of the resource; when the
    status update fails, or the re-fetch does, the pass stops there and
    returns that error, no finalizer or child-object call having been
    made. *)
Theorem C6_status_initialised_first req w d
  (Hfetched : head (callsOf (Reconcile req w)) = Some (GetDeployer req (Ok d)))
  (Hempty : Conditions d = []) :
  ∃ ans rest,
    callsOf (Reconcile req w) =
      GetDeployer req (Ok d)
      :: StatusUpdate (withConditions d [startingCondition (clock w)]) ans
      :: rest
    ∧ match ans with
      | Err e =>
          rest = [] ∧ outcomeOf (Reconcile req w) = Return noRequeue (Some e)
      | Ok stored =>
          Conditions stored = [startingCondition (clock w)]
          ∧ ∃ got rest',
              rest = GetDeployer req got :: rest'
              ∧ ∀ e, got = Err e →
                  rest' = []
                  ∧ outcomeOf (Reconcile req w) = Return noRequeue (Some e)
      end.
Proof.
  revert Hfetched. enter req w H.
  to_next_call H. cbn [head]. intros [= ->]. cbv beta iota in H.
  to_next_call H; try congruence.
  match goal with E : Conditions d = [] |- _ => rename E into Hnil end.
  rewrite ?Hnil. rewrite ?Hnil in H.
  repeat match goal with
         | E : ∀ new, _ = Ok new → _ |- _ => rewrite Hnil in E
         end.
  change (meta.SetStatusCondition (clock w) []
            (condition typeAvailableDeployer ConditionUnknown "Reconciling"
               "Starting reconciliation"))
    with [startingCondition (clock w)] in *.
  match goal with x : res Deployer |- _ => destruct x as [stored|e] end;
    cbv beta iota in H.
  - to_next_call H.
    do 2 eexists. split; [reflexivity|]. split; [eauto|].
    do 2 eexists. split; [reflexivity|]. intros e ->. cbv beta iota in H.
    to_next_call H. done.
  - to_next_call H. do 2 eexists. split; [reflexivity|]. done.
Qed.

Lemma C6_witness :
  let w := Sample.cluster (Sample.fresh "x" 3) [] in
  let d := Sample.fresh "x" 3 in
  let p := Reconcile ("directpv", "x") w in
  head (callsOf p) = Some (GetDeployer ("directpv", "x") (Ok d))
  ∧ Conditions d = []
  ∧ ∃ ans rest,
      callsOf p =
        GetDeployer ("directpv", "x") (Ok d)
        :: StatusUpdate (withConditions d [startingCondition (clock w)]) ans
        :: rest.
Proof.
  assert (H : head (callsOf (Reconcile ("directpv", "x")
                              (Sample.cluster (Sample.fresh "x" 3) [])))
              = Some (GetDeployer ("directpv", "x") (Ok (Sample.fresh "x" 3))))
    by (vm_compute; reflexivity).
  split; [exact H|]. split; [reflexivity|].
  destruct (C6_status_initialised_first _ _ _ H eq_refl)
    as (ans & rest & Hcalls & _).
  exists ans, rest. exact Hcalls.
Defined.



(** C8. In every pass in which the creation of the ServiceWorkload (the
    Deployment) succeeds, that creation is the last call of the pass, the
    pass returns without error asking to be requeued after one minute
    (not at once), and no update of the Deployment (the replica-drift
    correction) is made in that pass. *)
Theorem C8_delayed_requeue_after_create req w dep
  (Hcreated : In (CreateDeployment dep None) (callsOf (Reconcile req w))) :
  outcomeOf (Reconcile req w) = Return requeueAfterMinute None
  ∧ Requeue requeueAfterMinute = false
  ∧ RequeueAfter requeueAfterMinute = 60000000000
  ∧ last (callsOf (Reconcile req w)) = Some (CreateDeployment dep None)
  ∧ ∀ obj ans, ¬ In (UpdateDeployment obj ans) (callsOf (Reconcile req w)).
Proof.
  revert Hcreated. walk req w.
  all: cbn [In]; intros Hin; decompose [or] Hin; try discriminate;
    try contradiction.
  all: simplify_eq; repeat split; try reflexivity.
  all: intros obj ans; cbn [In]; intros Hq; decompose [or] Hq;
    try discriminate; contradiction.
Qed.

Lemma C8_witness :
  let p := Reconcile ("directpv", "x")
             (Sample.cluster (Sample.ready "x" 3) []) in
  In (CreateDeployment (Sample.deployment "x" 3) None) (callsOf p)
  ∧ outcomeOf p = Return requeueAfterMinute None
  ∧ last (callsOf p) = Some (CreateDeployment (Sample.deployment "x" 3) None).
Proof.
  assert (Hin : In (CreateDeployment (Sample.deployment "x" 3) None)
                  (callsOf (Reconcile ("directpv", "x")
                              (Sample.cluster (Sample.ready "x" 3) []))))
    by (vm_compute; repeat (first [left; reflexivity | right])).
  split; [exact Hin|].
  destruct (C8_delayed_requeue_after_create _ _ _ Hin) as (? & _ & _ & ? & _).
  split; assumption.
Defined.

(** C9 (as stated in the spec, refuted).  One deletion, the update that
    removes the finalizer failing once: the first pass has emitted the
    event when it fails, the replay emits it again, so the clean-up event
    occurs twice for this deletion. *)
Lemma C9_counterexample :
  let d := Sample.deleting "x" [deployerFinalizer] in
  let w := Sample.cluster d [None; None; None; None; Some Sample.timeout] in
  map brief (passes 2 ("directpv", "x") w).2
  = [ ("get deployer", true); ("update deployer status", true);
      ("event", true); ("get deployer", true);
      ("update deployer status", true); ("update deployer", false);
      ("get deployer", true); ("update deployer status", true);
      ("event", true); ("get deployer", true);
      ("update deployer status", true); ("update deployer", true) ]
  ∧ length (List.filter isEvent (passes 2 ("directpv", "x") w).2) = 2%nat
  ∧ ¬ (length (List.filter isEvent (passes 2 ("directpv", "x") w).2) ≤ 1)%nat.
Proof. vm_compute. repeat split; try reflexivity. lia. Qed.

(** C9 (amended).  In every pass, whether it ends well, fails or is
    cut short, the clean-up event is emitted at most once; and in every
    pass an update that sends the resource without the controller's
    finalizer is made only after that event has been emitted in the same
    pass.  (Across the passes of one deletion nothing keeps the event
    from being emitted once per pass.) *)
Theorem C9_event_before_finalizer_removal req w :
  (length (List.filter isEvent (callsOf (Reconcile req w))) ≤ 1)%nat
  ∧ ∀ pre obj ans post,
      callsOf (Reconcile req w) = pre ++ UpdateDeployer obj ans :: post →
      deployerFinalizer ∉ Finalizers obj →
      ∃ cr, In (RecordEvent cr "Warning" "Deleting"
                  ("Custom Resource " +:+ Name cr
                     +:+ " is being deleted from the namespace "
                     +:+ Namespace cr)) pre.
Proof.
  walk req w.
  all: split; [cbn; lia|].
  all: intros pre obj ans post Hcalls Hremoved; locate Hcalls.
  all: try (exfalso; apply Hremoved; eapply AddFinalizer_contains;
            eassumption).
  all: eexists; cbn [In]; eauto 10.
Qed.

Lemma C9_witness :
  let p := Reconcile ("directpv", "x")
             (Sample.cluster (Sample.deleting "x" [deployerFinalizer]) []) in
  let p' := Reconcile ("directpv", "x")
              (Sample.cluster (Sample.deleting "x" [deployerFinalizer])
                 [None; None; None; None; Some Sample.timeout]) in
  callsOf p
  = take 5 (callsOf p)
      ++ UpdateDeployer (Sample.finalized "x") (Ok (Sample.finalized "x"))
      :: []
  ∧ (deployerFinalizer ∉ Finalizers (Sample.finalized "x"))
  ∧ (∃ cr, In (RecordEvent cr "Warning" "Deleting"
                ("Custom Resource " +:+ Name cr
                   +:+ " is being deleted from the namespace "
                   +:+ Namespace cr)) (take 5 (callsOf p)))
  ∧ (length (List.filter isEvent (callsOf p)) ≤ 1)%nat
  ∧ outcomeOf p' = Return noRequeue (Some Sample.timeout)
  ∧ (length (List.filter isEvent (callsOf p')) ≤ 1)%nat.
Proof.
  assert (H1 : let p := Reconcile ("directpv", "x")
                 (Sample.cluster (Sample.deleting "x" [deployerFinalizer])
                    []) in
               callsOf p
               = take 5 (callsOf p)
                   ++ UpdateDeployer (Sample.finalized "x")
                        (Ok (Sample.finalized "x"))
                   :: []) by (vm_compute; reflexivity).
  assert (H2 : deployerFinalizer ∉ Finalizers (Sample.finalized "x"))
    by apply not_elem_of_nil.
  split; [exact H1|]. split; [exact H2|].
  split;
    [exact (proj2 (C9_event_before_finalizer_removal _ _) _ _ _ _ H1 H2)|].
  split; [exact (proj1 (C9_event_before_finalizer_removal _ _))|].
  split; [vm_compute; reflexivity|].
  exact (proj1 (C9_event_before_finalizer_removal _ _)).
Defined.

(** C10.  Whenever DIRECTPV_IMAGE is set to a string without a colon,
    label derivation panics on element 1 of a split of length 1, and so
    do both child-object builders, whatever else the environment holds:
    neither labels nor an error come back. *)
Theorem C10_image_without_colon_panics env image name memcached
  (Hset : env !! "DIRECTPV_IMAGE" = Some image)
  (Hnocolon : gostrings.Contains image ":" = false) :
  labelsForMemcached env name
    = Panics "runtime error: index out of range [1] with length 1"
  ∧ daemonSetForDeployer env memcached
    = Panics "runtime error: index out of range [1] with length 1"
  ∧ deploymentForDeployer env memcached
    = Panics "runtime error: index out of range [1] with length 1".
Proof.
  assert (Hl : ∀ n, labelsForMemcached env n
    = Panics "runtime error: index out of range [1] with length 1").
  { intros n. unfold labelsForMemcached, imageForDeployer. rewrite Hset.
    cbv zeta. rewrite (Split_without_separator _ _ Hnocolon). reflexivity. }
  unfold daemonSetForDeployer, deploymentForDeployer. by rewrite !Hl.
Qed.

Lemma C10_witness :
  let env : gmap string string := {[ "DIRECTPV_IMAGE" := "directpv" ]} in
  env !! "DIRECTPV_IMAGE" = Some "directpv"
  ∧ gostrings.Contains "directpv" ":" = false
  ∧ labelsForMemcached env "x"
    = Panics "runtime error: index out of range [1] with length 1".
Proof.
  assert (H : ({[ "DIRECTPV_IMAGE" := "directpv" ]} : gmap string string)
              !! "DIRECTPV_IMAGE" = Some "directpv")
    by (vm_compute; reflexivity).
  split; [exact H|]. split; [reflexivity|].
  exact (proj1 (C10_image_without_colon_panics _ _ "x"
                  (Sample.fresh "x" 3) H eq_refl)).
Defined.

(** ** Further properties of the reconciler *)

(** Every call leaves the clock, the environment and the existing child
    objects as they are, and adds no Deployer. *)

Lemma stable_refl w : stable w w.
Proof. by repeat split. Qed.

Lemma stable_trans w1 w2 w3 : stable w1 w2 → stable w2 w3 → stable w1 w3.
Proof.
  intros (He & Hc & Hds & Hdep & Hd) (He' & Hc' & Hds' & Hdep' & Hd').
  repeat split; [congruence|congruence|eauto..].
Qed.

Lemma stable_nextFault w f w1 : nextFault w = (f, w1) → stable w w1.
Proof.
  intros H. apply nextFault_frame in H as (? & ? & Hd & Hds & Hdep).
  repeat split; [done|done|rewrite Hds|rewrite Hdep|rewrite Hd]; done.
Qed.

Lemma keeps_bind {A B} (m : M A) (k : A → M B) :
  keeps m → (∀ a, keeps (k a)) → keeps (bind m k).
Proof.
  intros Hm Hk w o w' tr. unfold bind.
  destruct (m w) as [[[a|r e|msg] w1] t1] eqn:Em.
  - destruct (k a w1) as [[o2 w2] t2] eqn:Ek. intros [= <- <- <-].
    eapply stable_trans; [eapply Hm|eapply Hk]; eassumption.
  - intros [= <- <- <-]. eapply Hm; eassumption.
  - intros [= <- <- <-]. eapply Hm; eassumption.
Qed.

Lemma keeps_pure {A} (a : A) : keeps (pure a).
Proof. intros w o w' tr [= <- <- <-]. apply stable_refl. Qed.

Lemma keeps_return {A} r e : keeps (@return_ A r e).
Proof. intros w o w' tr [= <- <- <-]. apply stable_refl. Qed.

Lemma keeps_liftGo {A} (g : go A) : keeps (liftGo g).
Proof.
  intros w o w' tr. destruct g; intros [= <- <- <-]; apply stable_refl.
Qed.

Lemma keeps_getenv : keeps getenv.
Proof. intros w o w' tr [= <- <- <-]. apply stable_refl. Qed.

Lemma keeps_panic {A} msg : keeps (λ w, (@Panic A msg, w, [])).
Proof. intros w o w' tr [= <- <- <-]. apply stable_refl. Qed.

Lemma keeps_setCondition d c : keeps (setCondition d c).
Proof.
  unfold setCondition. apply keeps_bind; [|intros; apply keeps_pure].
  intros w o w' tr [= <- <- <-]. apply stable_refl.
Qed.

Lemma keeps_event cr : keeps (doFinalizerOperationsForDeployer cr).
Proof. intros w o w' tr [= <- <- <-]. apply stable_refl. Qed.

Lemma keeps_Get key : keeps (client.Get key).
Proof.
  intros w o w' tr. unfold client.Get.
  destruct (nextFault w) as [f w1] eqn:E. intros [= <- <- <-].
  by eapply stable_nextFault.
Qed.

Lemma keeps_GetDaemonSet key : keeps (client.GetDaemonSet key).
Proof.
  intros w o w' tr. unfold client.GetDaemonSet.
  destruct (nextFault w) as [f w1] eqn:E. intros [= <- <- <-].
  by eapply stable_nextFault.
Qed.

Lemma keeps_GetDeployment key : keeps (client.GetDeployment key).
Proof.
  intros w o w' tr. unfold client.GetDeployment.
  destruct (nextFault w) as [f w1] eqn:E. intros [= <- <- <-].
  by eapply stable_nextFault.
Qed.

Lemma keeps_StatusUpdate obj : keeps (client.StatusUpdate obj).
Proof.
  intros w o w' tr. unfold client.StatusUpdate.
  destruct (nextFault w) as [f w1] eqn:E. apply stable_nextFault in E.
  destruct f as [e|]; [by intros [= <- <- <-]|].
  destruct (deployers w1 !! keyOf obj) as [cur|] eqn:Hcur;
    intros [= <- <- <-]; [|done].
  eapply stable_trans; [exact E|]. repeat split; try done. cbn.
  intros key. destruct (decide (keyOf obj = key)) as [<-|Hne].
  - by rewrite Hcur.
  - by rewrite lookup_insert_ne.
Qed.

Lemma keeps_Update obj : keeps (client.Update obj).
Proof.
  intros w o w' tr. unfold client.Update.
  destruct (nextFault w) as [f w1] eqn:E. apply stable_nextFault in E.
  destruct f as [e|]; [by intros [= <- <- <-]|].
  destruct (deployers w1 !! keyOf obj) as [cur|] eqn:Hcur;
    [|by intros [= <- <- <-]].
  destruct (refusedFinalizers cur obj); intros [= <- <- <-]; [|done].
  eapply stable_trans; [exact E|]. repeat split; try done. cbn.
  intros key. destruct (decide (keyOf obj = key)) as [<-|Hne].
  - by rewrite Hcur.
  - repeat case_match; by rewrite ?lookup_insert_ne, ?lookup_delete_ne.
Qed.

Lemma keeps_CreateDaemonSet obj : keeps (client.CreateDaemonSet obj).
Proof.
  intros w o w' tr. unfold client.CreateDaemonSet.
  destruct (nextFault w) as [f w1] eqn:E. apply stable_nextFault in E.
  cbv zeta. destruct f as [e|]; [by intros [= <- <- <-]|].
  destruct (daemonSets w1 !! _) as [old|] eqn:Hold;
    intros [= <- <- <-]; [done|].
  eapply stable_trans; [exact E|]. repeat split; try done. cbn.
  intros key ds Hds. rewrite lookup_insert_ne; [done|]. congruence.
Qed.

Lemma keeps_CreateDeployment obj : keeps (client.CreateDeployment obj).
Proof.
  intros w o w' tr. unfold client.CreateDeployment.
  destruct (nextFault w) as [f w1] eqn:E. apply stable_nextFault in E.
  cbv zeta. destruct f as [e|]; [by intros [= <- <- <-]|].
  destruct (deployments w1 !! _) as [old|] eqn:Hold;
    intros [= <- <- <-]; [done|].
  eapply stable_trans; [exact E|]. repeat split; try done. cbn.
  intros key Hk. rewrite lookup_insert_ne; [done|].
  intros <-. rewrite Hold in Hk. by destruct Hk.
Qed.

Lemma keeps_UpdateDeployment obj : keeps (client.UpdateDeployment obj).
Proof.
  intros w o w' tr. unfold client.UpdateDeployment.
  destruct (nextFault w) as [f w1] eqn:E. apply stable_nextFault in E.
  cbv zeta. destruct f as [e|]; [by intros [= <- <- <-]|].
  destruct (deployments w1 !! _) as [old|] eqn:Hold;
    intros [= <- <- <-]; [|done].
  eapply stable_trans; [exact E|]. repeat split; try done. cbn.
  intros key Hk.
  destruct (decide ((depNamespace obj, depName obj) = key)) as [<-|Hne].
  - rewrite lookup_insert_eq. eauto.
  - by rewrite lookup_insert_ne.
Qed.

(** The rule for sequencing, applied along the text of the method. *)
Ltac keeping :=
  repeat first
    [ apply keeps_setCondition | apply keeps_event
    | apply keeps_bind; [|intros ?]
    | apply keeps_pure | apply keeps_return | apply keeps_liftGo
    | apply keeps_getenv | apply keeps_panic
    | apply keeps_Get | apply keeps_GetDaemonSet
    | apply keeps_GetDeployment | apply keeps_StatusUpdate
    | apply keeps_Update | apply keeps_CreateDaemonSet
    | apply keeps_CreateDeployment | apply keeps_UpdateDeployment
    | match goal with
      | |- keeps (match ?x with _ => _ end) => destruct x
      end ].

Lemma Reconcile_keeps req : keeps (Reconcile req).
Proof. unfold Reconcile. keeping. Qed.

(** The failed call whose error a pass returned. *)
Ltac blame_in Hnocall l :=
  lazymatch l with
  | ?c :: ?l' =>
      first
        [ exact (Hnocall c
                   ltac:(cbn [In]; repeat (first [left; reflexivity | right]))
                   eq_refl)
        | blame_in Hnocall l' ]
  end.

Ltac blame Hnocall :=
  lazymatch type of Hnocall with
  | ∀ c, In c ?l → _ => exfalso; blame_in Hnocall l
  end.

(** X1.  When the first fetch of the resource fails, it is the only call
    of the pass: a NotFound answer ends the pass without error and
    without requeue, any other error is returned as it is. *)
Theorem fetch_failure_ends_pass req w e
  (Hfetch : head (callsOf (Reconcile req w)) = Some (GetDeployer req (Err e))) :
  callsOf (Reconcile req w) = [GetDeployer req (Err e)]
  ∧ outcomeOf (Reconcile req w)
    = Return noRequeue (if IsNotFound e then None else Some e).
Proof.
  revert Hfetch. enter req w H.
  to_next_call H. cbn [head]. intros [= ->]. cbv beta iota in H.
  to_next_call H; done.
Qed.

Lemma fetch_failure_ends_pass_witness :
  let p := Reconcile ("directpv", "x")
             (Sample.cluster (Sample.fresh "x" 3) [Some Sample.timeout]) in
  head (callsOf p) = Some (GetDeployer ("directpv", "x") (Err Sample.timeout))
  ∧ callsOf p = [GetDeployer ("directpv", "x") (Err Sample.timeout)]
  ∧ outcomeOf p = Return noRequeue (Some Sample.timeout).
Proof.
  assert (H : head (callsOf (Reconcile ("directpv", "x")
                 (Sample.cluster (Sample.fresh "x" 3) [Some Sample.timeout])))
              = Some (GetDeployer ("directpv", "x") (Err Sample.timeout)))
    by (vm_compute; reflexivity).
  split; [exact H|]. exact (fetch_failure_ends_pass _ _ _ H).
Defined.

(** X2.  Whatever the deletion timestamp of the resource: when the
    resource a pass fetches has conditions but not the controller's
    finalizer, the next call is the update that sends the resource with
    the finalizer appended, and when that update fails the pass stops
    and returns its error. *)
Theorem absent_finalizer_is_always_added req w d
  (Hfetched : head (callsOf (Reconcile req w)) = Some (GetDeployer req (Ok d)))
  (Hinit : Conditions d ≠ [])
  (Habsent : deployerFinalizer ∉ Finalizers d) :
  ∃ ans rest,
    callsOf (Reconcile req w)
    = GetDeployer req (Ok d)
      :: UpdateDeployer
           (withFinalizers d (Finalizers d ++ [deployerFinalizer])) ans
      :: rest
    ∧ ∀ e, ans = Err e →
        rest = [] ∧ outcomeOf (Reconcile req w) = Return noRequeue (Some e).
Proof.
  revert Hfetched. enter req w H.
  to_next_call H. cbn [head]. intros [= ->]. cbv beta iota in H.
  rewrite when_initialised in H by done. rewrite bind_pure in H.
  unfold ContainsFinalizer, AddFinalizer in H.
  rewrite bool_decide_eq_false_2 in H by done.
  cbn [negb] in H. cbv beta iota in H.
  to_next_call H. do 2 eexists. split; [reflexivity|].
  intros e ->. to_next_call H. done.
Qed.

Lemma absent_finalizer_is_always_added_witness :
  let d := Sample.deleting "x" ["other"] in
  let p := Reconcile ("directpv", "x") (Sample.cluster d []) in
  head (callsOf p) = Some (GetDeployer ("directpv", "x") (Ok d))
  ∧ DeletionTimestamp d = Some 950
  ∧ ∃ ans rest,
      callsOf p
      = GetDeployer ("directpv", "x") (Ok d)
        :: UpdateDeployer
             (withFinalizers d (Finalizers d ++ [deployerFinalizer])) ans
        :: rest.
Proof.
  assert (H : head (callsOf (Reconcile ("directpv", "x")
                 (Sample.cluster (Sample.deleting "x" ["other"]) [])))
              = Some (GetDeployer ("directpv", "x")
                        (Ok (Sample.deleting "x" ["other"]))))
    by (vm_compute; reflexivity).
  split; [exact H|]. split; [reflexivity|].
  destruct (absent_finalizer_is_always_added _ _ _ H) as (ans & rest & Hc & _).
  - discriminate.
  - cbn. intros Hin. apply list_elem_of_singleton in Hin. discriminate Hin.
  - exists ans, rest. exact Hc.
Defined.



(** X4.  No failure is swallowed.  For every call of a pass that was
    answered with an error: either the error is NotFound and the call is
    a look-up of a child object or the only call of the pass (the first
    fetch); or the pass returns exactly that error, without requeue, and
    the failed call is its last call, so no status condition is written
    for it; or the call is the update of the Deployment, after which the
    pass still returns an error without requeue. *)
Theorem every_failure_is_returned req w c e
  (Hin : In c (callsOf (Reconcile req w)))
  (Hfail : failure c = Some e) :
  (IsNotFound e = true
   ∧ (isChildLookup c = true ∨ callsOf (Reconcile req w) = [c]))
  ∨ (outcomeOf (Reconcile req w) = Return noRequeue (Some e)
     ∧ last (callsOf (Reconcile req w)) = Some c)
  ∨ (∃ dep e', c = UpdateDeployment dep (Some e)
               ∧ outcomeOf (Reconcile req w) = Return noRequeue (Some e')).
Proof.
  revert Hin. walk req w.
  all: cbn [In]; intros Hin; decompose [or] Hin; try contradiction;
    subst c; cbn in Hfail; try discriminate Hfail;
    injection Hfail as <-.
  all: first
    [ by (right; left; split; reflexivity)
    | by (left; split; [assumption|left; reflexivity])
    | by (left; split; [assumption|right; reflexivity])
    | by (right; right; do 2 eexists; split; reflexivity) ].
Qed.

Lemma every_failure_is_returned_witness :
  let p := Reconcile ("directpv", "x")
             (Sample.cluster (Sample.ready "x" 3)
                [None; None; Some Sample.timeout]) in
  let c := CreateDaemonSet (Sample.daemonSet "x") (Some Sample.timeout) in
  In c (callsOf p)
  ∧ failure c = Some Sample.timeout
  ∧ outcomeOf p = Return noRequeue (Some Sample.timeout)
  ∧ last (callsOf p) = Some c.
Proof.
  assert (Hin : In (CreateDaemonSet (Sample.daemonSet "x")
                      (Some Sample.timeout))
                  (callsOf (Reconcile ("directpv", "x")
                     (Sample.cluster (Sample.ready "x" 3)
                        [None; None; Some Sample.timeout]))))
    by (vm_compute; repeat (first [left; reflexivity | right])).
  split; [exact Hin|]. split; [reflexivity|].
  destruct (every_failure_is_returned _ _ _ _ Hin eq_refl)
    as [[Hnf _] | [Hret | (dep & e' & Hc & _)]].
  - discriminate Hnf.
  - exact Hret.
  - discriminate Hc.
Defined.

(** X5.  An error a pass returns that none of its calls was answered
    with is the error of a child-object builder (a missing image
    variable): it is returned without requeue, and the last call of the
    pass is the successful status update that sets Available=False with
    reason Reconciling on the resource the pass holds. *)
Theorem error_without_failed_call_is_a_builder_error req w r e
  (Hreturned : outcomeOf (Reconcile req w) = Return r (Some e))
  (Hnocall : ∀ c, In c (callsOf (Reconcile req w)) → failure c ≠ Some e) :
  r = noRequeue
  ∧ ∃ d c stored,
      (daemonSetForDeployer (environ w) d = Fine (Err e)
       ∨ deploymentForDeployer (environ w) d = Fine (Err e))
      ∧ last (callsOf (Reconcile req w))
        = Some (StatusUpdate
                  (withConditions d
                     (meta.SetStatusCondition (clock w) (Conditions d) c))
                  (Ok stored))
      ∧ Type_ c = "Available" ∧ Status c = ConditionFalse
      ∧ Reason c = "Reconciling".
Proof.
  revert Hreturned Hnocall. walk req w.
  all: intros Hq Hnocall;
    first [discriminate Hq | injection Hq; intros; subst]; clear Hq.
  all: try blame Hnocall.
  all: split; [reflexivity|]; do 3 eexists;
    split; [first [left; eassumption | right; eassumption]|];
    split; [reflexivity|]; done.
Qed.

Lemma error_without_failed_call_is_a_builder_error_witness :
  let p := Reconcile ("directpv", "x")
             (Sample.clusterWith (delete "LIVENESS_PROBE" Sample.allImages)
                (Sample.ready "x" 3) []) in
  outcomeOf p = Return noRequeue (Some missingImage)
  ∧ map brief (callsOf p)
    = [ ("get deployer", true); ("get daemonset", false);
        ("update deployer status", true) ]
  ∧ noRequeue = noRequeue.
Proof.
  assert (H : outcomeOf (Reconcile ("directpv", "x")
                 (Sample.clusterWith
                    (delete "LIVENESS_PROBE" Sample.allImages)
                    (Sample.ready "x" 3) []))
              = Return noRequeue (Some missingImage))
    by (vm_compute; reflexivity).
  split; [exact H|]. split; [vm_compute; reflexivity|].
  refine (proj1 (error_without_failed_call_is_a_builder_error _ _ _ _ H _)).
  intros c Hin. vm_compute in Hin.
  destruct Hin as [<- | [<- | [<- | []]]]; vm_compute; discriminate.
Defined.

(** X6.  A pass panics for two reasons only: the Deployment it found
    has no replica count, which the comparison with the size
    dereferences; or DIRECTPV_IMAGE is set to a string without a colon
    and a child object that was not found had to be built. *)
Theorem panic_causes req w msg
  (Hpanic : outcomeOf (Reconcile req w) = Panic msg) :
  (msg = nilDereference
   ∧ ∃ key dep,
       last (callsOf (Reconcile req w)) = Some (GetDeployment key (Ok dep))
       ∧ Replicas dep = None)
  ∨ (msg = "runtime error: index out of range [1] with length 1"
     ∧ (∃ image, environ w !! "DIRECTPV_IMAGE" = Some image
                 ∧ gostrings.Contains image ":" = false)
     ∧ ∃ key e,
         IsNotFound e = true
         ∧ (last (callsOf (Reconcile req w)) = Some (GetDaemonSet key (Err e))
            ∨ last (callsOf (Reconcile req w))
              = Some (GetDeployment key (Err e)))).
Proof.
  revert Hpanic. walk req w.
  all: intros Hq; first [discriminate Hq | injection Hq as <-].
  all: try (left; split; [reflexivity|]; do 2 eexists;
                 split; [reflexivity|assumption]).
  all: right;
    match goal with
    | H : daemonSetForDeployer _ _ = Panics _ |- _ =>
        apply daemonSetForDeployer_panics, labelsForMemcached_panics in H
          as (image & ? & ? & ->)
    | H : deploymentForDeployer _ _ = Panics _ |- _ =>
        apply deploymentForDeployer_panics, labelsForMemcached_panics in H
          as (image & ? & ? & ->)
    end.
  all: split; [reflexivity|]; split; [eauto|]; do 2 eexists;
    (split; [eassumption|]); first [left; reflexivity | right; reflexivity].
Qed.

Lemma panic_causes_witness :
  let p := Reconcile ("directpv", "x")
             (Sample.clusterWith {[ "DIRECTPV_IMAGE" := "directpv" ]}
                (Sample.ready "x" 3) []) in
  outcomeOf p = Panic "runtime error: index out of range [1] with length 1"
  ∧ map brief (callsOf p)
    = [ ("get deployer", true); ("get daemonset", false) ].
Proof.
  assert (H : outcomeOf (Reconcile ("directpv", "x")
                 (Sample.clusterWith {[ "DIRECTPV_IMAGE" := "directpv" ]}
                    (Sample.ready "x" 3) []))
              = Panic "runtime error: index out of range [1] with length 1")
    by (vm_compute; reflexivity).
  split; [exact H|].
  destruct (panic_causes _ _ _ H) as [[Hnil _] | _].
  - discriminate Hnil.
  - vm_compute; reflexivity.
Defined.

(** X7.  A pass never touches an existing DaemonSet: whatever the pass
    does and however its calls are answered, every DaemonSet of the
    cluster is afterwards stored under the same key with the same
    content. *)
Theorem pass_leaves_daemonsets_alone req w key ds
  (Hthere : daemonSets w !! key = Some ds) :
  daemonSets (worldOf (Reconcile req w)) !! key = Some ds.
Proof.
  destruct (Reconcile req w) as [[o w'] tr] eqn:H.
  apply Reconcile_keeps in H as (_ & _ & Hds & _). by apply Hds.
Qed.

Lemma pass_leaves_daemonsets_alone_witness :
  let w := Sample.running (Sample.ready "node-server" 5) 3 [] in
  daemonSets w !! ("directpv", "node-server")
  = Some (Sample.daemonSet "node-server")
  ∧ daemonSets (worldOf (Reconcile ("directpv", "node-server") w))
      !! ("directpv", "node-server")
    = Some (Sample.daemonSet "node-server").
Proof.
  assert (H : daemonSets (Sample.running (Sample.ready "node-server" 5) 3 [])
                !! ("directpv", "node-server")
              = Some (Sample.daemonSet "node-server"))
    by (vm_compute; reflexivity).
  split; [exact H|].
  exact (pass_leaves_daemonsets_alone _ _ _ _ H).
Defined.

(** X8.  A pass never removes a Deployment, and it leaves the process
    environment as it is: a Deployment stored before the pass is stored
    after it (its replica count may have been changed). *)
Theorem pass_never_removes_a_deployment req w key dep
  (Hthere : deployments w !! key = Some dep) :
  is_Some (deployments (worldOf (Reconcile req w)) !! key)
  ∧ environ (worldOf (Reconcile req w)) = environ w.
Proof.
  destruct (Reconcile req w) as [[o w'] tr] eqn:H.
  apply Reconcile_keeps in H as (He & _ & _ & Hdep & _).
  split; [apply Hdep; eauto|done].
Qed.

Lemma pass_never_removes_a_deployment_witness :
  let w := Sample.running (Sample.ready "node-server" 5) 3 [] in
  deployments w !! ("directpv", "node-server")
  = Some (Sample.deployment "node-server" 3)
  ∧ is_Some (deployments (worldOf (Reconcile ("directpv", "node-server") w))
               !! ("directpv", "node-server")).
Proof.
  assert (H : deployments
                (Sample.running (Sample.ready "node-server" 5) 3 [])
                !! ("directpv", "node-server")
              = Some (Sample.deployment "node-server" 3))
    by (vm_compute; reflexivity).
  split; [exact H|].
  exact (proj1 (pass_never_removes_a_deployment _ _ _ _ H)).
Defined.

(** X9.  Drift correction converges in two passes.  For a live,
    initialised resource stored under its own name, with both children
    found, the Deployment stored under its own name with a replica count
    different from the size, and no call failing: the first pass returns
    an immediate requeue and leaves the Deployment stored with the size
    of the resource as replica count; the second pass returns without
    error and without requeue and leaves the resource stored with the
    condition Available=True whose message names the size. *)
Theorem drift_converges req w d ds dep M
  (Hstored : deployers w !! req = Some d)
  (Hkey : keyOf d = req)
  (Hquiet : faults w = [])
  (Hinit : Conditions d ≠ [])
  (Hfinalizer : deployerFinalizer ∈ Finalizers d)
  (Hlive : DeletionTimestamp d = None)
  (Hagent : daemonSets w !! ("directpv", Name d) = Some ds)
  (Hservice : deployments w !! ("directpv", Name d) = Some dep)
  (Hown : (depNamespace dep, depName dep) = ("directpv", Name d))
  (Hobserved : Replicas dep = Some M)
  (Hdrift : M ≠ Size d) :
  let p1 := Reconcile req w in
  let p2 := Reconcile req (worldOf p1) in
  outcomeOf p1 = Return requeueNow None
  ∧ deployments (worldOf p1) !! ("directpv", Name d)
    = Some (withReplicas dep (Size d))
  ∧ outcomeOf p2 = Return noRequeue None
  ∧ ∃ stored c,
      deployers (worldOf p2) !! req = Some stored
      ∧ meta.FindStatusCondition (Conditions stored) "Available" = Some c
      ∧ Status c = ConditionTrue
      ∧ Message c = Message (availableCondition d).
Proof.
  injection Hown as Hns Hn.
  set (w1 := setDeployments w
               (<[("directpv", Name d) := withReplicas dep (Size d)]>
                  (deployments w))).
  assert (Hp1 : Reconcile req w
            = (Return requeueNow None, w1,
               [ GetDeployer req (Ok d);
                 GetDaemonSet ("directpv", Name d) (Ok ds);
                 GetDeployment ("directpv", Name d) (Ok dep);
                 UpdateDeployment (withReplicas dep (Size d)) None ])).
  { unfold Reconcile. run_call Get_quiet.
    rewrite when_initialised by done. rewrite bind_pure.
    unfold ContainsFinalizer. rewrite bool_decide_eq_true_2 by done.
    cbn [negb]. rewrite bind_pure. rewrite Hlive.
    run_call GetDaemonSet_quiet. rewrite bind_pure.
    run_call GetDeployment_quiet. rewrite bind_pure. cbv zeta.
    rewrite Hobserved. rewrite decide_True by done.
    eapply bind_call.
    { eapply UpdateDeployment_quiet; [done|]. cbn. by rewrite Hns, Hn. }
    cbn [withReplicas depNamespace depName]. rewrite Hns, Hn. reflexivity. }
  set (d2 := withConditions d
               (meta.SetStatusCondition (clock w) (Conditions d)
                  (availableCondition d))).
  set (w2 := setDeployers w1 (<[req := d2]> (deployers w1))).
  assert (Hp2 : Reconcile req w1
            = (Return noRequeue None, w2,
               [ GetDeployer req (Ok d);
                 GetDaemonSet ("directpv", Name d) (Ok ds);
                 GetDeployment ("directpv", Name d)
                   (Ok (withReplicas dep (Size d)));
                 StatusUpdate d2 (Ok d2) ])).
  { unfold Reconcile. run_call Get_quiet.
    rewrite when_initialised by done. rewrite bind_pure.
    unfold ContainsFinalizer. rewrite bool_decide_eq_true_2 by done.
    cbn [negb]. rewrite bind_pure. rewrite Hlive.
    run_call GetDaemonSet_quiet. rewrite bind_pure.
    eapply bind_call.
    { apply GetDeployment_quiet; [done|]. cbn. apply lookup_insert_eq. }
    cbv beta iota. rewrite bind_pure. cbv zeta.
    cbn [withReplicas Replicas].
    rewrite decide_False by (intros Hne; by apply Hne).
    rewrite bind_setCondition. cbn [clock w1 setDeployments].
    fold (availableCondition d). fold d2.
    eapply bind_call.
    { eapply (StatusUpdate_quiet d2 d); [done|].
      change (deployers w !! keyOf d = Some d). by rewrite Hkey. }
    change (keyOf d2) with (keyOf d). rewrite Hkey. reflexivity. }
  cbv zeta. rewrite Hp1. unfold outcomeOf, worldOf; cbn [fst snd].
  split; [done|]. split; [apply lookup_insert_eq|].
  rewrite Hp2. cbn [fst snd]. split; [done|].
  destruct (SetStatusCondition_found (clock w) (Conditions d)
              (availableCondition d)) as (c & Hc & Hs & _ & Hm).
  exists d2, c. split; [apply lookup_insert_eq|]. by repeat split.
Qed.

Lemma drift_converges_witness :
  let d := Sample.ready "node-server" 5 in
  let w := Sample.running d 3 [] in
  let p1 := Reconcile ("directpv", "node-server") w in
  let p2 := Reconcile ("directpv", "node-server") (worldOf p1) in
  deployers w !! ("directpv", "node-server") = Some d
  ∧ 3 ≠ Size d
  ∧ outcomeOf p1 = Return requeueNow None
  ∧ deployments (worldOf p1) !! ("directpv", "node-server")
    = Some (withReplicas (Sample.deployment "node-server" 3) 5)
  ∧ outcomeOf p2 = Return noRequeue None.
Proof.
  assert (H : deployers (Sample.running (Sample.ready "node-server" 5) 3 [])
                !! ("directpv", "node-server")
              = Some (Sample.ready "node-server" 5))
    by (vm_compute; reflexivity).
  assert (Hne : 3 ≠ Size (Sample.ready "node-server" 5)) by (cbn; lia).
  split; [exact H|]. split; [exact Hne|].
  destruct (drift_converges ("directpv", "node-server")
              (Sample.running (Sample.ready "node-server" 5) 3 [])
              (Sample.ready "node-server" 5)
              (Sample.daemonSet "node-server")
              (Sample.deployment "node-server" 3) 3 H)
    as (H1 & H2 & H3 & _).
  - reflexivity.
  - reflexivity.
  - discriminate.
  - apply list_elem_of_here.
  - reflexivity.
  - vm_compute; reflexivity.
  - vm_compute; reflexivity.
  - reflexivity.
  - reflexivity.
  - exact Hne.
  - split; [exact H1|]. split; [exact H2|]. exact H3.
Defined.

(** X10.  Unless the resource is named node-server and lives in the
    namespace directpv, the controller never finds the DaemonSet it has
    created.  For a live, initialised resource with no child yet and no
    call failing, the first pass creates the DaemonSet (and the
    Deployment) and asks for a delayed requeue; every later pass looks
    the DaemonSet up under the name of the resource, does not find it,
    tries to create it again and returns the AlreadyExists error of the
    store.  The resource is never reported available. *)
Theorem agent_is_never_found_again req w d ds dep
  (Hstored : deployers w !! req = Some d)
  (Hquiet : faults w = [])
  (Hinit : Conditions d ≠ [])
  (Hfinalizer : deployerFinalizer ∈ Finalizers d)
  (Hlive : DeletionTimestamp d = None)
  (Hother : (Namespace d, "node-server") ≠ ("directpv", Name d))
  (Hnoagent : daemonSets w !! ("directpv", Name d) = None)
  (Hfree : daemonSets w !! (Namespace d, "node-server") = None)
  (Hnoservice : deployments w !! ("directpv", Name d) = None)
  (Hfree' : deployments w !! (Namespace d, Name d) = None)
  (Hagent : daemonSetForDeployer (environ w) d = Fine (Ok ds))
  (Hservice : deploymentForDeployer (environ w) d = Fine (Ok dep)) :
  outcomeOf (Reconcile req w) = Return requeueAfterMinute None
  ∧ In (CreateDaemonSet ds None) (callsOf (Reconcile req w))
  ∧ ∀ n,
      outcomeOf (Reconcile req (passes n req (worldOf (Reconcile req w))).1)
      = Return noRequeue
          (Some (alreadyExists "daemonsets.apps"
                   (Namespace d, "node-server"))).
Proof.
  destruct (daemonSet_built _ _ _ Hagent) as [Hn Hns].
  destruct (deployment_built _ _ _ Hservice) as (Hdn & Hdns & _).
  set (w1 := setDeployments
               (setDaemonSets w
                  (<[(Namespace d, "node-server") := ds]> (daemonSets w)))
               (<[(Namespace d, Name d) := dep]> (deployments w))).
  assert (Hp1 : Reconcile req w
            = (Return requeueAfterMinute None, w1,
               [ GetDeployer req (Ok d);
                 GetDaemonSet ("directpv", Name d)
                   (Err (notFound "daemonsets.apps" ("directpv", Name d)));
                 CreateDaemonSet ds None;
                 GetDeployment ("directpv", Name d)
                   (Err (notFound "deployments.apps" ("directpv", Name d)));
                 CreateDeployment dep None ])).
  { unfold Reconcile. run_call Get_quiet.
    destruct (Conditions d) as [|c0 cs] eqn:Hcs; [done|].
    rewrite bind_pure.
    unfold ContainsFinalizer. rewrite bool_decide_eq_true_2 by done.
    cbn [negb]. rewrite bind_pure. rewrite Hlive.
    run_call GetDaemonSet_missing. rewrite notFound_IsNotFound.
    rewrite bind_assoc, bind_getenv, bind_assoc, bind_liftGo, Hagent.
    rewrite bind_assoc.
    eapply bind_call;
      [apply CreateDaemonSet_quiet; [done|by rewrite Hn, Hns]|].
    cbv beta iota. rewrite bind_pure, Hn, Hns.
    eapply bind_call; [by apply GetDeployment_missing|]. cbv beta iota.
    rewrite notFound_IsNotFound.
    rewrite bind_assoc, bind_getenv, bind_assoc, bind_liftGo.
    cbn [environ setDaemonSets]. rewrite Hservice.
    rewrite bind_assoc.
    eapply bind_call;
      [apply CreateDeployment_quiet; [done|by rewrite Hdn, Hdns]|].
    cbv beta iota. rewrite Hdn, Hdns. reflexivity. }
  assert (Hp2 : Reconcile req w1
            = (Return noRequeue
                 (Some (alreadyExists "daemonsets.apps"
                          (Namespace d, "node-server"))), w1,
               [ GetDeployer req (Ok d);
                 GetDaemonSet ("directpv", Name d)
                   (Err (notFound "daemonsets.apps" ("directpv", Name d)));
                 CreateDaemonSet ds
                   (Some (alreadyExists "daemonsets.apps"
                            (Namespace d, "node-server"))) ])).
  { unfold Reconcile. run_call Get_quiet.
    destruct (Conditions d) as [|c0 cs] eqn:Hcs; [done|].
    rewrite bind_pure.
    unfold ContainsFinalizer. rewrite bool_decide_eq_true_2 by done.
    cbn [negb]. rewrite bind_pure. rewrite Hlive.
    eapply bind_call.
    { apply GetDaemonSet_missing; [done|]. cbn.
      by rewrite lookup_insert_ne. }
    cbv beta iota. rewrite notFound_IsNotFound.
    rewrite bind_assoc, bind_getenv, bind_assoc, bind_liftGo.
    cbn [environ setDaemonSets setDeployments w1]. rewrite Hagent.
    rewrite bind_assoc.
    eapply bind_call.
    { eapply CreateDaemonSet_taken; [done|by rewrite Hn, Hns|]. cbn.
      apply lookup_insert_eq. }
    reflexivity. }
  rewrite Hp1. split; [done|]. split; [cbn; tauto|].
  unfold worldOf; cbn [fst snd].
  assert (Hstay : ∀ n, (passes n req w1).1 = w1).
  { induction n as [|n IH]; [done|]. cbn. by rewrite Hp2. }
  intros n. rewrite Hstay. by rewrite Hp2.
Qed.

Lemma agent_is_never_found_again_witness :
  let d := Sample.ready "x" 3 in
  let w := Sample.cluster d [] in
  (Namespace d, "node-server") ≠ ("directpv", Name d)
  ∧ outcomeOf (Reconcile ("directpv", "x") w)
    = Return requeueAfterMinute None
  ∧ outcomeOf (Reconcile ("directpv", "x")
                 (passes 3 ("directpv", "x")
                    (worldOf (Reconcile ("directpv", "x") w))).1)
    = Return noRequeue
        (Some (alreadyExists "daemonsets.apps" ("directpv", "node-server"))).
Proof.
  assert (Hne : (Namespace (Sample.ready "x" 3), "node-server")
                ≠ ("directpv", Name (Sample.ready "x" 3)))
    by discriminate.
  split; [exact Hne|].
  destruct (agent_is_never_found_again ("directpv", "x")
              (Sample.cluster (Sample.ready "x" 3) [])
              (Sample.ready "x" 3)
              (Sample.daemonSet "x") (Sample.deployment "x" 3))
    as (H1 & _ & H3).
  - vm_compute; reflexivity.
  - reflexivity.
  - discriminate.
  - apply list_elem_of_here.
  - reflexivity.
  - exact Hne.
  - vm_compute; reflexivity.
  - vm_compute; reflexivity.
  - vm_compute; reflexivity.
  - vm_compute; reflexivity.
  - vm_compute; reflexivity.
  - vm_compute; reflexivity.
  - split; [exact H1|]. exact (H3 3%nat).
Defined.

(** X11.  [daemonSetForDeployer] returns a DaemonSet exactly when
    DIRECTPV_IMAGE is set to a string with a colon and both
    CSI_NODE_DRIVER_REGISTRAR and LIVENESS_PROBE are set; it needs
    neither CSI_RESIZER nor CSI_PROVISIONER, and setting the owner
    reference never fails. *)
Theorem daemonSet_built_iff env d :
  (∃ ds, daemonSetForDeployer env d = Fine (Ok ds))
  ↔ (∃ image, env !! "DIRECTPV_IMAGE" = Some image
              ∧ gostrings.Contains image ":" = true)
    ∧ is_Some (env !! "CSI_NODE_DRIVER_REGISTRAR")
    ∧ is_Some (env !! "LIVENESS_PROBE").
Proof.
  unfold daemonSetForDeployer, labelsForMemcached, imageForDeployer,
    imageForRegistrar, imageForLivenessProbe.
  rewrite SetControllerReference_same_namespace. cbv zeta.
  destruct (env !! "DIRECTPV_IMAGE") as [image|].
  2:{ split; [by intros [? ?]|]. by intros [[? [? ?]] _]. }
  destruct (gostrings.Contains image ":") eqn:Hc.
  2:{ rewrite (Split_without_separator _ _ Hc). cbn.
      split; [by intros [? ?]|]. intros [[? [[= <-] ?]] _]. congruence. }
  destruct (Split_with_separator _ _ Hc) as [tag ->].
  destruct (env !! "CSI_NODE_DRIVER_REGISTRAR") as [r|].
  2:{ split; [by intros [? ?]|]. by intros (_ & [? ?] & _). }
  destruct (env !! "LIVENESS_PROBE") as [l|].
  2:{ split; [by intros [? ?]|]. by intros (_ & _ & [? ?]). }
  split; [|eauto]. intros _. eauto.
Qed.

Lemma daemonSet_built_iff_witness :
  ∃ ds, daemonSetForDeployer
          (delete "CSI_RESIZER" (delete "CSI_PROVISIONER" Sample.allImages))
          (Sample.ready "x" 3) = Fine (Ok ds).
Proof.
  apply (proj2 (daemonSet_built_iff _ _)). split; [|split].
  - exists "quay.io/minio/directpv:v4.0.6".
    split; vm_compute; reflexivity.
  - exists "csi-node-driver-registrar:v2.8.0". vm_compute; reflexivity.
  - exists "livenessprobe:v2.10.0". vm_compute; reflexivity.
Defined.

(** X12.  [deploymentForDeployer] returns a Deployment exactly when
    DIRECTPV_IMAGE is set to a string with a colon and both CSI_RESIZER
    and CSI_PROVISIONER are set; it needs neither
    CSI_NODE_DRIVER_REGISTRAR nor LIVENESS_PROBE. *)
Theorem deployment_built_iff env d :
  (∃ dep, deploymentForDeployer env d = Fine (Ok dep))
  ↔ (∃ image, env !! "DIRECTPV_IMAGE" = Some image
              ∧ gostrings.Contains image ":" = true)
    ∧ is_Some (env !! "CSI_RESIZER")
    ∧ is_Some (env !! "CSI_PROVISIONER").
Proof.
  unfold deploymentForDeployer, labelsForMemcached, imageForDeployer,
    imageForResizer, imageForProvisioner.
  rewrite SetControllerReference_same_namespace. cbv zeta.
  destruct (env !! "DIRECTPV_IMAGE") as [image|].
  2:{ split; [by intros [? ?]|]. by intros [[? [? ?]] _]. }
  destruct (gostrings.Contains image ":") eqn:Hc.
  2:{ rewrite (Split_without_separator _ _ Hc). cbn.
      split; [by intros [? ?]|]. intros [[? [[= <-] ?]] _]. congruence. }
  destruct (Split_with_separator _ _ Hc) as [tag ->].
  destruct (env !! "CSI_RESIZER") as [r|].
  2:{ split; [by intros [? ?]|]. by intros (_ & [? ?] & _). }
  destruct (env !! "CSI_PROVISIONER") as [l|].
  2:{ split; [by intros [? ?]|]. by intros (_ & _ & [? ?]). }
  split; [|eauto]. intros _. eauto.
Qed.

Lemma deployment_built_iff_witness :
  ∃ dep, deploymentForDeployer
           (delete "LIVENESS_PROBE"
              (delete "CSI_NODE_DRIVER_REGISTRAR" Sample.allImages))
           (Sample.ready "x" 3) = Fine (Ok dep).
Proof.
  apply (proj2 (deployment_built_iff _ _)). split; [|split].
  - exists "quay.io/minio/directpv:v4.0.6".
    split; vm_compute; reflexivity.
  - exists "csi-resizer:v1.8.0". vm_compute; reflexivity.
  - exists "csi-provisioner:v3.5.0". vm_compute; reflexivity.
Defined.

(** X13.  When DIRECTPV_IMAGE is not set at all nothing panics: the
    labels are derived with an empty version, and both builders return
    the error that names the variable. *)
Theorem missing_image_is_an_error_not_a_panic env d
  (Hunset : env !! "DIRECTPV_IMAGE" = None) :
  labelsForMemcached env (Name d) = Fine (labels (Name d) EmptyString)
  ∧ daemonSetForDeployer env d
    = Fine (Err (PlainError
        "Unable to find DIRECTPV_IMAGE environment variable with the image"))
  ∧ deploymentForDeployer env d
    = Fine (Err (PlainError
        "Unable to find DIRECTPV_IMAGE environment variable with the image")).
Proof.
  unfold daemonSetForDeployer, deploymentForDeployer, labelsForMemcached,
    imageForDeployer. by rewrite Hunset.
Qed.

Lemma missing_image_is_an_error_not_a_panic_witness :
  (∅ : gmap string string) !! "DIRECTPV_IMAGE" = None
  ∧ daemonSetForDeployer ∅ (Sample.ready "x" 3)
    = Fine (Err (PlainError
        "Unable to find DIRECTPV_IMAGE environment variable with the image")).
Proof.
  assert (H : (∅ : gmap string string) !! "DIRECTPV_IMAGE" = None)
    by reflexivity.
  split; [exact H|].
  exact (proj1 (proj2 (missing_image_is_an_error_not_a_panic _
                         (Sample.ready "x" 3) H))).
Defined.

(** X14.  Every child object the builders return is owned by the
    resource through exactly one controller reference, lives in the
    namespace of the resource, and selects its own pods: the selector
    labels are the template labels, the same for both children, and
    carry the name of the resource as instance.  The Deployment has the
    name of the resource and its size as replica count; the DaemonSet
    has the fixed name node-server. *)
Theorem children_are_owned_and_selected env d ds dep
  (Hagent : daemonSetForDeployer env d = Fine (Ok ds))
  (Hservice : deploymentForDeployer env d = Fine (Ok dep)) :
  dsOwnerReferences ds
  = [ {| ownerKind := "Deployer"; ownerName := Name d;
         ownerController := true |} ]
  ∧ depOwnerReferences dep = dsOwnerReferences ds
  ∧ dsMatchLabels ds = dsTemplateLabels ds
  ∧ depMatchLabels dep = depTemplateLabels dep
  ∧ depMatchLabels dep = dsMatchLabels ds
  ∧ dsMatchLabels ds !! "app.kubernetes.io/instance" = Some (Name d)
  ∧ dsNamespace ds = Namespace d ∧ depNamespace dep = Namespace d
  ∧ dsName ds = "node-server" ∧ depName dep = Name d
  ∧ Replicas dep = Some (Size d).
Proof.
  revert Hagent Hservice. unfold daemonSetForDeployer, deploymentForDeployer.
  rewrite SetControllerReference_same_namespace. cbv zeta.
  destruct (labelsForMemcached env (Name d)) as [ls|] eqn:Hls; [|done].
  destruct (imageForDeployer env); [|done].
  destruct (imageForRegistrar env); [|done].
  destruct (imageForLivenessProbe env); [|done].
  destruct (imageForResizer env); [|done].
  destruct (imageForProvisioner env); [|done].
  intros [= <-] [= <-]. cbn. repeat split.
  revert Hls. unfold labelsForMemcached.
  destruct (imageForDeployer env); [|intros [= <-]; reflexivity].
  cbv zeta. destruct (_ !! 1%nat); [|done]. intros [= <-]. reflexivity.
Qed.

Lemma children_are_owned_and_selected_witness :
  daemonSetForDeployer Sample.allImages (Sample.ready "x" 3)
  = Fine (Ok (Sample.daemonSet "x"))
  ∧ deploymentForDeployer Sample.allImages (Sample.ready "x" 3)
    = Fine (Ok (Sample.deployment "x" 3))
  ∧ depOwnerReferences (Sample.deployment "x" 3)
    = dsOwnerReferences (Sample.daemonSet "x").
Proof.
  assert (H1 : daemonSetForDeployer Sample.allImages (Sample.ready "x" 3)
               = Fine (Ok (Sample.daemonSet "x")))
    by (vm_compute; reflexivity).
  assert (H2 : deploymentForDeployer Sample.allImages (Sample.ready "x" 3)
               = Fine (Ok (Sample.deployment "x" 3)))
    by (vm_compute; reflexivity).
  split; [exact H1|]. split; [exact H2|].
  exact (proj1 (proj2 (children_are_owned_and_selected _ _ _ _ H1 H2))).
Defined.

(** X15.  The version label is the second colon-separated piece of
    DIRECTPV_IMAGE, not its last one: for an image whose text before the
    first colon is [registry], the label is what stands between the
    first and the second colon.  It is the tag when the image has one
    colon; for a registry with a port it is the text after the port
    colon up to the tag colon. *)
Theorem version_label_is_the_second_piece env registry rest name
  (Hset : env !! "DIRECTPV_IMAGE" = Some (registry +:+ String ":" rest))
  (Hfirst : gostrings.Contains registry ":" = false) :
  ∃ tag more,
    gostrings.Split rest ":" = tag :: more
    ∧ labelsForMemcached env name = Fine (labels name tag)
    ∧ labels name tag !! "app.kubernetes.io/version" = Some tag
    ∧ (gostrings.Contains rest ":" = false → tag = rest).
Proof.
  destruct (Split_nonempty rest ":") as (tag & more & Hrest).
  exists tag, more. split; [done|].
  unfold labelsForMemcached, imageForDeployer. rewrite Hset. cbv zeta.
  rewrite (Split_at_first _ _ _ Hfirst), Hrest. cbn [lookup].
  split; [reflexivity|]. split; [reflexivity|].
  intros Hnone. rewrite (Split_without_separator _ _ Hnone) in Hrest.
  by injection Hrest.
Qed.

Lemma version_label_is_the_second_piece_witness :
  let env : gmap string string :=
    {[ "DIRECTPV_IMAGE" := "localhost:5000/directpv:v4.0.6" ]} in
  env !! "DIRECTPV_IMAGE"
  = Some ("localhost" +:+ String ":" "5000/directpv:v4.0.6")
  ∧ labelsForMemcached env "x" = Fine (labels "x" "5000/directpv").
Proof.
  assert (H : ({[ "DIRECTPV_IMAGE" := "localhost:5000/directpv:v4.0.6" ]}
                 : gmap string string) !! "DIRECTPV_IMAGE"
              = Some ("localhost" +:+ String ":" "5000/directpv:v4.0.6"))
    by (vm_compute; reflexivity).
  split; [exact H|].
  destruct (version_label_is_the_second_piece _ _ _ "x" H eq_refl)
    as (tag & more & Hsplit & Hlabels & _).
  rewrite Hlabels. vm_compute in Hsplit. by injection Hsplit as <- _.
Defined.
